(** * ODOT drainage tables: header resolution, table reading, linking, layout

    A shallow embedding of the logic of [parser.py], [formatter_da.py] and
    [formatter_inlet.py].

    - Cell values are the Python values openpyxl hands out for a cell:
      [None], [bool], [int], [float] and [str].  Floats are binary64
      ([PrimFloat]); date and time cells are not modelled.
    - Text is ASCII: a [string] of characters below 128.  [upper] maps a-z to
      A-Z and leaves every other character alone.
    - A record ([dict] with string keys) is a [gmap string value].
    - A worksheet is the map of its written cells, keyed by (row, column),
      and its list of merged ranges.  Fonts, borders, alignments, column
      widths and row heights are presentation only and are left out.
    - Python exceptions are the [Raise] results of [result].  Writing a
      cell always succeeds here: openpyxl refuses a text that holds a
      control character (IllegalCharacterError), and that check is not
      modelled, so what is proved of a sheet is proved of the sheet the
      code returns when it returns one. *)

From Stdlib Require Import ZArith Floats Ascii String.
From stdpp Require Import gmap strings list fin_maps pretty.

Local Open Scope string_scope.

(** ** Python values *)

Inductive value : Type :=
| VNone
| VBool (b : bool)
| VInt (z : Z)
| VFloat (f : float)
| VStr (s : string).

Inductive exn : Type := TypeError | OverflowError | IndexError.

Inductive result (A : Type) : Type :=
| Ok (a : A)
| Raise (e : exn).
Arguments Ok {A} a.
Arguments Raise {A} e.

#[global] Instance result_bind : MBind result := λ A B k r,
  match r with
  | Ok a => k a
  | Raise e => Raise e
  end.

(** [v is None] *)
Definition is_None (v : value) : bool :=
  match v with VNone => true | _ => false end.

(** [bool(v)] *)
Definition truthy (v : value) : bool :=
  match v with
  | VNone => false
  | VBool b => b
  | VInt z => negb (z =? 0)%Z
  | VFloat f => negb (PrimFloat.eqb f 0%float)
  | VStr s => negb (String.eqb s "")
  end.

(** [a or b] *)
Definition py_or (a b : value) : value := if truthy a then a else b.

(** [v != 0]: a string or [None] is never equal to a number. *)
Definition ne_zero (v : value) : bool :=
  match v with
  | VNone => true
  | VBool b => b
  | VInt z => negb (z =? 0)%Z
  | VFloat f => negb (PrimFloat.eqb f 0%float)
  | VStr _ => true
  end.

(** [float(z)] for an [int]: nearest binary64, [OverflowError] when the
    integer is too large. *)
Definition float_of_int (z : Z) : result float :=
  let f := SF2Prim (SpecFloat.binary_normalize 53 1024 z 0 false) in
  if is_infinity f then Raise OverflowError else Ok f.

(** [a + b].  A [bool] is an [int]; two strings concatenate. *)
Definition py_add (a b : value) : result value :=
  match a, b with
  | VInt x, VInt y => Ok (VInt (x + y))
  | VInt x, VBool y => Ok (VInt (x + Z.b2z y))
  | VBool x, VInt y => Ok (VInt (Z.b2z x + y))
  | VBool x, VBool y => Ok (VInt (Z.b2z x + Z.b2z y))
  | VFloat x, VFloat y => Ok (VFloat (x + y))
  | VFloat x, VInt y => fy ← float_of_int y; Ok (VFloat (x + fy))
  | VFloat x, VBool y => fy ← float_of_int (Z.b2z y); Ok (VFloat (x + fy))
  | VInt x, VFloat y => fx ← float_of_int x; Ok (VFloat (fx + y))
  | VBool x, VFloat y => fx ← float_of_int (Z.b2z x); Ok (VFloat (fx + y))
  | VStr x, VStr y => Ok (VStr (x ++ y))
  | _, _ => Raise TypeError
  end.

(** ** Python string methods *)

(** Characters [str.strip()] removes. *)
Definition is_space (c : ascii) : bool :=
  let n := nat_of_ascii c in
  (((9 <=? n) && (n <=? 13)) || ((28 <=? n) && (n <=? 32)))%nat.

Definition upper_char (c : ascii) : ascii :=
  let n := nat_of_ascii c in
  if ((97 <=? n) && (n <=? 122))%nat then ascii_of_nat (n - 32) else c.

(** [s.upper()] *)
Fixpoint upper (s : string) : string :=
  match s with
  | "" => ""
  | String c r => String (upper_char c) (upper r)
  end.

(** [p in s] *)
Fixpoint str_in (p s : string) : bool :=
  String.prefix p s ||
  match s with
  | "" => false
  | String _ r => str_in p r
  end.

(** [s.lstrip()] *)
Fixpoint lstrip (s : string) : string :=
  match s with
  | "" => ""
  | String c r => if is_space c then lstrip r else s
  end.

(** [s.rstrip()] *)
Fixpoint rstrip (s : string) : string :=
  match s with
  | "" => ""
  | String c r =>
      match rstrip r with
      | "" => if is_space c then "" else String c ""
      | r' => String c r'
      end
  end.

(** [s.strip()] *)
Definition strip (s : string) : string := rstrip (lstrip s).

(** [s.split(sep)] for a one-character separator: never the empty list. *)
Fixpoint split (sep : ascii) (s : string) : list string :=
  match s with
  | "" => [""]
  | String c r =>
      if Ascii.eqb c sep then "" :: split sep r
      else match split sep r with
           | seg :: segs => String c seg :: segs
           | [] => [String c ""]
           end
  end.

(** [sep.join(parts)] *)
Fixpoint join (sep : string) (parts : list string) : string :=
  match parts with
  | [] => ""
  | [p] => p
  | p :: ps => p ++ sep ++ join sep ps
  end.

Definition backslash : ascii := ascii_of_nat 92%nat.

(** ** parser.py: the header resolver *)

(** [_find_column(header, target_phrases)]: the outer loop runs over the
    header cells, the inner loop over the phrases. *)
Fixpoint find_phrase (h_upper : string) (target_phrases : list string) : bool :=
  match target_phrases with
  | [] => false
  | phrase :: rest => if str_in phrase h_upper then true else find_phrase h_upper rest
  end.

Fixpoint _find_column_from (i : nat) (header : list string)
    (target_phrases : list string) : option nat :=
  match header with
  | [] => None
  | h :: hs =>
      let h_upper := upper h in
      if find_phrase h_upper target_phrases then Some i
      else _find_column_from (S i) hs target_phrases
  end.

Definition _find_column (header : list string) (target_phrases : list string)
    : option nat :=
  _find_column_from 0 header target_phrases.

(** ** Records and worksheets *)

(** A parsed record: a [dict] from field name to cell value. *)
Abbreviation record := (gmap string value).

(** [d.get(k)] *)
Definition dict_get (d : record) (k : string) : value :=
  default VNone (d !! k).

(** [d.get(k, dflt)] *)
Definition dict_get_default (d : record) (k : string) (dflt : value) : value :=
  default dflt (d !! k).

(** [bool(d)] for a [dict]: false exactly for the empty one. *)
Definition dict_truthy (d : record) : bool := negb (bool_decide (d = ∅)).

(** A merged range "A2:L2" is kept as its two corners. *)
Record worksheet : Type := Worksheet {
  ws_title : string;
  cells : gmap (nat * nat) value;
  merged : list ((nat * nat) * (nat * nat))
}.

(** [wb.create_sheet(title=...)] *)
Definition create_sheet (title : string) : worksheet :=
  Worksheet title ∅ [].

(** [ws.cell(row, column).value = v], also [ws["B1"].value = v] *)
Definition set_value (ws : worksheet) (row col : nat) (v : value) : worksheet :=
  Worksheet (ws_title ws) (<[(row, col) := v]> (cells ws)) (merged ws).

(** [ws.merge_cells(...)] *)
Definition merge_cells (ws : worksheet) (r1 c1 r2 c2 : nat) : worksheet :=
  Worksheet (ws_title ws) (cells ws) (merged ws ++ [((r1, c1), (r2, c2))]).

(** [_write_cell(ws, row, col, value)], the same in both formatters; the
    value is stored as it is. *)
Definition _write_cell (ws : worksheet) (row col : nat) (v : value) : worksheet :=
  set_value ws row col v.

(** [row[i] if i < len(row) else None] *)
Definition cell_or_None (row : list value) (col_idx : nat) : value :=
  default VNone (row !! col_idx).

Section Parser.

(** [repr] of a float (its shortest round-trip decimal text) is a primitive
    of the language; the model takes it as given. *)
Variable float_repr : float → string.

(** [str(v)] *)
Definition py_str (v : value) : string :=
  match v with
  | VNone => "None"
  | VBool true => "True"
  | VBool false => "False"
  | VInt z => pretty z
  | VFloat f => float_repr f
  | VStr s => s
  end.

(** ** parser.py: the table reader *)

(** [[str(h).strip() if h else "" for h in rows[0]]] *)
Definition header_of (row0 : list value) : list string :=
  map (λ h, if truthy h then strip (py_str h) else "") row0.

(** The dict comprehension dropping the fields that found no column. *)
Definition resolved (col_map : list (string * option nat)) : list (string * nat) :=
  omap (λ kv, match kv.2 with Some i => Some (kv.1, i) | None => None end) col_map.

(** The body of the inner [for key, col_idx in col_map.items()] loop. *)
Definition read_record (col_map : list (string * nat)) (row : list value) : record :=
  foldl (λ rec kv, <[kv.1 := cell_or_None row kv.2]> rec) ∅ col_map.

(** The [for row in rows[1:]] loop, the same in both parsers; [data] is the
    list being appended to.  [row[0]] raises on an empty tuple. *)
Fixpoint read_rows (col_map : list (string * nat)) (rows : list (list value))
    (data : list record) : result (list record) :=
  match rows with
  | [] => Ok data
  | row :: rest =>
      match row with
      | [] => Raise IndexError
      | c0 :: _ =>
          if is_None c0 then read_rows col_map rest data
          else read_rows col_map rest (data ++ [read_record col_map row])
      end
  end.

Definition da_col_map (header : list string) : list (string * nat) :=
  resolved [
    ("designation", _find_column header ["DRAINAGE AREA DESIGNATION"]);
    ("outflow_structure", _find_column header ["OUTFLOW STRUCTURE"]);
    ("area_acres", _find_column header ["DRAINAGE AREA (ACRE"; "DRAINAGE AREA(ACRE"]);
    ("tc_min", _find_column header ["TIME OF CONCENTRATION"]);
    ("runoff_coeff", _find_column header ["RUNOFF COEFFICIENT"]);
    ("intensity", _find_column header ["CATCHMENT INTENSITY"; "INTENSITY"]);
    ("flow_cfs", _find_column header ["CATCHMENT RATIONAL FLOW"; "RATIONAL FLOW"])
  ].

Definition inlet_col_map (header : list string) : list (string * nat) :=
  resolved [
    ("structure_no", _find_column header ["STRUCTURE NO"]);
    ("alignment", _find_column header ["ALIGNMENT"]);
    ("station", _find_column header ["STATION"]);
    ("offset", _find_column header ["OFFSET"]);
    ("structure_type", _find_column header ["STRUCTURE TYPE"]);
    ("description", _find_column header ["DESCRIPTION"]);
    ("elevation_rim", _find_column header ["ELEVATION (RIM)"; "ELEVATION"]);
    ("flow_captured", _find_column header ["FLOW (CAPTURED)"; "CAPTURED"]);
    ("flow_bypassed_rational", _find_column header ["BYPASSED RATIONAL"]);
    ("flow_total_bypassed", _find_column header ["TOTAL BYPASSED"]);
    ("capture_efficiency", _find_column header ["CAPTURE EFFICIENCY"]);
    ("max_spread", _find_column header ["SPREAD"]);
    ("hgl_out", _find_column header ["HYDRAULIC GRADE"]);
    ("egl_out", _find_column header ["ENERGY GRADE"]);
    ("bypass_target", _find_column header ["BYPASS TARGET"])
  ].

(** [parse_da_summary], from the rows [ws.iter_rows(values_only=True)]
    yields; opening the workbook is outside the model. *)
Definition parse_da_summary (rows : list (list value)) : result (list record) :=
  match rows with
  | [] => Ok []
  | row0 :: data_rows =>
      let header := header_of row0 in
      read_rows (da_col_map header) data_rows []
  end.

(** [parse_inlets], likewise. *)
Definition parse_inlets (rows : list (list value)) : result (list record) :=
  match rows with
  | [] => Ok []
  | row0 :: data_rows =>
      let header := header_of row0 in
      read_rows (inlet_col_map header) data_rows []
  end.

End Parser.

(** ** formatter_da.py: the Drainage Area Summary sheet *)

Definition dquote : string := String (ascii_of_nat 34%nat) "".

Definition single_headers : list (nat * string) :=
  [ (1%nat, "DRAINAGE AREA DESIGNATION");
    (2%nat, "DRAINAGE AREA (ACRE)");
    (3%nat, "TOTAL TC (MIN)");
    (4%nat, "RUNOFF COEFF. " ++ dquote ++ "C" ++ dquote) ].

Definition sub_headers : list string :=
  ["10 YEAR"; "25 YEAR"; "50 YEAR"; "100 YEAR"].

(** Rows 2 to 4: the title, the primary headers and the sub-headers. *)
Definition da_header_rows (ws : worksheet) : worksheet :=
  let ws := merge_cells ws 2 1 2 12 in
  let ws := set_value ws 2 1 (VStr "DRAINAGE AREA SUMMARY") in
  let ws := foldl (λ ws ct,
                     let ws := merge_cells ws 3 ct.1 4 ct.1 in
                     set_value ws 3 ct.1 (VStr ct.2)) ws single_headers in
  let ws := merge_cells ws 3 5 3 8 in
  let ws := set_value ws 3 5 (VStr "RAINFALL INTENSITY (IN/HR)") in
  let ws := merge_cells ws 3 9 3 12 in
  let ws := set_value ws 3 9 (VStr "PEAK FLOW (CFS)") in
  let ws := foldl (λ ws it, set_value ws 4 (5 + it.1) (VStr it.2)) ws
                  (imap (λ i text, (i, text)) sub_headers) in
  let ws := foldl (λ ws it, set_value ws 4 (9 + it.1) (VStr it.2)) ws
                  (imap (λ i text, (i, text)) sub_headers) in
  ws.

(** The body of [for row_idx, record in enumerate(da_data, start=5)]. *)
Definition da_data_row (ws : worksheet) (row_idx : nat) (rec : record) : worksheet :=
  let ws := _write_cell ws row_idx 1 (dict_get rec "designation") in
  let ws := _write_cell ws row_idx 2 (dict_get rec "area_acres") in
  let ws := _write_cell ws row_idx 3 (dict_get rec "tc_min") in
  let ws := _write_cell ws row_idx 4 (dict_get rec "runoff_coeff") in
  let ws := _write_cell ws row_idx 5 (dict_get rec "intensity") in
  let ws := foldl (λ ws col, _write_cell ws row_idx col VNone) ws (seq 6 3) in
  let ws := _write_cell ws row_idx 9 (dict_get rec "flow_cfs") in
  let ws := foldl (λ ws col, _write_cell ws row_idx col VNone) ws (seq 10 3) in
  ws.

Fixpoint da_data_rows (ws : worksheet) (row_idx : nat) (da_data : list record)
    : worksheet :=
  match da_data with
  | [] => ws
  | rec :: rest => da_data_rows (da_data_row ws row_idx rec) (S row_idx) rest
  end.

(** [create_da_summary_sheet(wb, da_data)]: the sheet it adds to [wb]. *)
Definition create_da_summary_sheet (da_data : list record) : worksheet :=
  let ws := create_sheet "Drainage Area Summary" in
  let ws := da_header_rows ws in
  da_data_rows ws 5 da_data.

(** ** formatter_inlet.py: the Inlet Design Record sheet *)

(** [COLUMNS]: (column, header text, rotated?); B is column 2. *)
Definition COLUMNS : list (nat * string * bool) :=
  [ (2%nat, "STRUCTURE NUMBER", true);
    (3%nat, "ALIGNMENT", true);
    (4%nat, "STATION, OFFSET", false);
    (5%nat, "INLET TYPE", false);
    (6%nat, "DESCRIPTION", false);
    (7%nat, "DESIGN YEAR", false);
    (8%nat, "DRAINAGE AREA", true);
    (9%nat, "AREA (ACRE)", true);
    (10%nat, "C VALUE", true);
    (11%nat, "Tc (MINUTES)", true);
    (12%nat, "INTENSITY (IN/HR)", true);
    (13%nat, " FLOW RATE INITIAL (Qi) (CFS)", true);
    (14%nat, "GRADE " ++ dquote ++ "SL" ++ dquote ++ " (ft/ft)", true);
    (15%nat, "CROSS SLOPE " ++ dquote ++ "Sx" ++ dquote ++ " (ft/ft)", true);
    (16%nat, "CARRY OVER (CFS)", true);
    (17%nat, "SUM Q AT INLETS (CFS)", true);
    (18%nat, "DEPTH AT INLET (FT)", true);
    (19%nat, "SPREAD AT INLET (FT)", true);
    (20%nat, "BYPASS(CFS)", true);
    (21%nat, "BYPASS TO INLET", true);
    (22%nat, "COMMENTS", false) ].

(** [da_by_outflow.get(struct_no)]: the keys are strings, so a key of any
    other type finds nothing. *)
Definition index_get (idx : gmap string record) (k : value) : option record :=
  match k with
  | VStr s => idx !! s
  | _ => None
  end.

(** [da_record.get(k) if da_record else None] *)
Definition linked_field (da_record : option record) (k : string) : value :=
  match da_record with
  | Some d => if dict_truthy d then dict_get d k else VNone
  | None => VNone
  end.

(** Column Q:
    [captured = record.get("flow_captured") or 0]
    [bypassed = record.get("flow_total_bypassed") or 0]
    [sum_q = captured + bypassed if (captured or bypassed) else None] *)
Definition sum_q (rec : record) : result value :=
  let captured := py_or (dict_get rec "flow_captured") (VInt 0) in
  let bypassed := py_or (dict_get rec "flow_total_bypassed") (VInt 0) in
  if truthy (py_or captured bypassed) then py_add captured bypassed
  else Ok VNone.

Section Inlet.

Variable float_repr : float → string.

(** [_extract_inlet_type(description)]; [parts[-1]] always exists, because
    [split] never returns the empty list. *)
Definition _extract_inlet_type (description : value) : string :=
  if negb (truthy description) then ""
  else
    let parts := split backslash (py_str float_repr description) in
    strip (default "" (last parts)).

(** [_format_station_offset(station, offset)] *)
Definition _format_station_offset (station offset : value) : string :=
  let parts : list string := [] in
  let parts :=
    if negb (is_None station) then (parts ++ [py_str float_repr station])%list
    else parts in
  let parts :=
    if negb (is_None offset) && ne_zero offset
    then (parts ++ [("Offset: " ++ py_str float_repr offset)%string])%list
    else parts in
  match parts with
  | [] => ""
  | _ => join ", " parts
  end.

(** The body of [for da in da_data] in the DA lookup. *)
Definition index_step (idx : gmap string record) (da : record)
    : gmap string record :=
  let outflow := dict_get_default da "outflow_structure" (VStr "") in
  if truthy outflow then <[strip (py_str float_repr outflow) := da]> idx
  else idx.

(** The DA lookup built at the top of [create_inlet_sheet]; [da_data] is
    [None] when the caller passes nothing, and [if da_data:] also skips
    the empty list. *)
Definition da_by_outflow (da_data : option (list record)) : gmap string record :=
  match da_data with
  | None => ∅
  | Some [] => ∅
  | Some l => foldl index_step ∅ l
  end.

(** Rows 1 to 4: the title and the merged column headers. *)
Definition inlet_header_rows (ws : worksheet) : worksheet :=
  let ws := merge_cells ws 1 2 1 22 in
  let ws := set_value ws 1 2 (VStr "DRAINAGE STRUCTURE DESIGN RECORD - INLETS") in
  foldl (λ ws col,
           let ws := merge_cells ws 2 col.1.1 4 col.1.1 in
           set_value ws 2 col.1.1 (VStr col.1.2)) ws COLUMNS.

(** The "PROPOSED" label in column A. *)
Definition proposed_label (ws : worksheet) (data_start : nat)
    (inlet_data : list record) : worksheet :=
  let data_end := data_start + length inlet_data - 1 in
  match inlet_data with
  | [] => ws
  | _ =>
      let ws := if bool_decide (1 < length inlet_data)
                then merge_cells ws data_start 1 data_end 1 else ws in
      set_value ws data_start 1 (VStr "PROPOSED")
  end.

(** The body of [for row_idx, record in enumerate(inlet_data, start=5)]. *)
Definition inlet_data_row (idx : gmap string record) (ws : worksheet)
    (row_idx : nat) (rec : record) : result worksheet :=
  let struct_no := dict_get_default rec "structure_no" (VStr "") in
  let da_record := index_get idx struct_no in
  let ws := _write_cell ws row_idx 2 struct_no in
  let ws := _write_cell ws row_idx 3 (dict_get rec "alignment") in
  let ws := _write_cell ws row_idx 4
              (VStr (_format_station_offset (dict_get rec "station")
                                            (dict_get rec "offset"))) in
  let ws := _write_cell ws row_idx 5
              (VStr (_extract_inlet_type (dict_get rec "description"))) in
  let ws := _write_cell ws row_idx 6 (dict_get rec "structure_type") in
  let ws := _write_cell ws row_idx 7 VNone in
  let ws := _write_cell ws row_idx 8 (linked_field da_record "designation") in
  let ws := _write_cell ws row_idx 9 (linked_field da_record "area_acres") in
  let ws := _write_cell ws row_idx 10 (linked_field da_record "runoff_coeff") in
  let ws := _write_cell ws row_idx 11 (linked_field da_record "tc_min") in
  let ws := _write_cell ws row_idx 12 (linked_field da_record "intensity") in
  let ws := _write_cell ws row_idx 13 (dict_get rec "flow_captured") in
  let ws := _write_cell ws row_idx 14 VNone in
  let ws := _write_cell ws row_idx 15 VNone in
  let ws := _write_cell ws row_idx 16 (dict_get rec "flow_total_bypassed") in
  q ← sum_q rec;
  let ws := _write_cell ws row_idx 17 q in
  let ws := _write_cell ws row_idx 18 VNone in
  let ws := _write_cell ws row_idx 19 (dict_get rec "max_spread") in
  let ws := _write_cell ws row_idx 20 (dict_get rec "flow_bypassed_rational") in
  let ws := _write_cell ws row_idx 21 (dict_get rec "bypass_target") in
  let ws := _write_cell ws row_idx 22 VNone in
  Ok ws.

Fixpoint inlet_data_rows (idx : gmap string record) (ws : worksheet)
    (row_idx : nat) (inlet_data : list record) : result worksheet :=
  match inlet_data with
  | [] => Ok ws
  | rec :: rest =>
      ws ← inlet_data_row idx ws row_idx rec;
      inlet_data_rows idx ws (S row_idx) rest
  end.

(** [create_inlet_sheet(wb, inlet_data, da_data=None)]: the sheet it adds. *)
Definition create_inlet_sheet (inlet_data : list record)
    (da_data : option (list record)) : result worksheet :=
  let ws := create_sheet "Inlets" in
  let ws := inlet_header_rows ws in
  let idx := da_by_outflow da_data in
  let data_start := 5 in
  let ws := proposed_label ws data_start inlet_data in
  inlet_data_rows idx ws data_start inlet_data.

End Inlet.

(** ** gui.py: the workbook [_generate] builds *)

Section Gui.

Variable float_repr : float → string.

(** The body of the [try] in [DrainageApp._generate], up to [wb.save].
    [da_rows] and [inlet_rows] are the rows of the two chosen files, [None]
    for a path left empty.  The workbook is the list of its sheets:
    [Workbook()] followed by [wb.remove(wb.active)] has none, and
    [create_sheet] appends.  The dialogs, the status line and the saving of
    the file are outside the model. *)
Definition generate_workbook (da_rows inlet_rows : option (list (list value)))
    : result (list worksheet) :=
  da_data ← match da_rows with
            | Some rows => parse_da_summary float_repr rows
            | None => Ok []
            end;
  inlet_data ← match inlet_rows with
               | Some rows => parse_inlets float_repr rows
               | None => Ok []
               end;
  let wb : list worksheet := [] in
  let wb := match da_data with
            | [] => wb
            | _ => (wb ++ [create_da_summary_sheet da_data])%list
            end in
  match inlet_data with
  | [] => Ok wb
  | _ =>
      ws ← create_inlet_sheet float_repr inlet_data
             (match da_data with [] => None | _ => Some da_data end);
      Ok (wb ++ [ws])%list
  end.

End Gui.

(** ** Vocabulary of the properties *)

(** Every character of [s] is whitespace. *)
Fixpoint all_space (s : string) : bool :=
  match s with
  | "" => true
  | String c r => is_space c && all_space r
  end.

(** [c] occurs in [s]. *)
Fixpoint has_char (c : ascii) (s : string) : bool :=
  match s with
  | "" => false
  | String c' r => Ascii.eqb c' c || has_char c r
  end.

(** A data row the table reader keeps: its first cell holds a value. *)
Definition row_present (row : list value) : bool :=
  match row with
  | c0 :: _ => negb (is_None c0)
  | [] => false
  end.

(** The offset is reported: present and not equal to 0. *)
Definition offset_shown (offset : value) : bool :=
  negb (is_None offset) && ne_zero offset.

(** A cell holds a text that is not empty. *)
Definition nonempty_text (v : value) : bool :=
  match v with
  | VStr s => negb (String.eqb s "")
  | _ => false
  end.

(** The value a parsed record holds for a field: the cell of the row in the
    column the header resolver found, [None] past the end of the row;
    nothing when the resolver found no column. *)
Definition field_of_row (row : list value) (col : option nat) : option value :=
  cell_or_None row <$> col.

Section Vocabulary.

Variable float_repr : float → string.

(** The station part of the station/offset display. *)
Definition station_text (station : value) : string :=
  if is_None station then "" else py_str float_repr station.

(** A drainage-area record enters the link index: its [outflow_structure]
    is truthy. *)
Definition indexed (da : record) : bool :=
  truthy (dict_get_default da "outflow_structure" (VStr "")).

(** The key it is stored under. *)
Definition link_key (da : record) : string :=
  strip (py_str float_repr (dict_get_default da "outflow_structure" (VStr ""))).

(** The inlet type in the specification's words: the last non-empty segment
    of the description split on the backslash, trimmed; the empty string
    when the description is absent. *)
Definition last_nonempty_segment_trimmed (description : value) : string :=
  match description with
  | VNone => ""
  | _ =>
      let segs := split backslash (py_str float_repr description) in
      strip (default "" (last (List.filter (λ seg, negb (String.eqb seg "")) segs)))
  end.

End Vocabulary.

(** Closed examples never format a float; they run the model with this
    stand-in for [repr]. *)
Definition repr_unused : float → string := λ _, "".

(** * Properties *)

(** ** Strings *)

Lemma rstrip_cons_nonspace c r :
  is_space c = false → rstrip (String c r) = String c (rstrip r).
Proof.
  intros Hc. simpl. rewrite Hc. by destruct (rstrip r).
Qed.

Lemma rstrip_cons c r :
  rstrip (String c r) =
  match rstrip r with
  | "" => if is_space c then "" else String c ""
  | r' => String c r'
  end.
Proof. done. Qed.

Lemma rstrip_idemp s : rstrip (rstrip s) = rstrip s.
Proof.
  induction s as [|c r IH]; [done|].
  rewrite rstrip_cons. destruct (rstrip r) as [|c' r'] eqn:Hr.
  - destruct (is_space c) eqn:Hc; [done|]. simpl. by rewrite Hc.
  - rewrite rstrip_cons, IH. done.
Qed.

Lemma lstrip_head s :
  lstrip s = "" ∨ ∃ c r, lstrip s = String c r ∧ is_space c = false.
Proof.
  induction s as [|c r IH]; [by left|].
  simpl. destruct (is_space c) eqn:Hc; [done|]. right. eauto.
Qed.

Lemma lstrip_strip s : lstrip (strip s) = strip s.
Proof.
  unfold strip. destruct (lstrip_head s) as [->|(c & r & -> & Hc)]; [done|].
  rewrite rstrip_cons_nonspace by done. simpl. by rewrite Hc.
Qed.

Lemma strip_idemp s : strip (strip s) = strip s.
Proof.
  unfold strip at 1. rewrite lstrip_strip. unfold strip. apply rstrip_idemp.
Qed.

Lemma lstrip_all_space s : all_space s = true → lstrip s = "".
Proof.
  induction s as [|c r IH]; [done|]. simpl.
  intros [Hc Hr]%andb_true_iff. rewrite Hc. auto.
Qed.

Lemma strip_all_space s : all_space s = true → strip s = "".
Proof. intros H. unfold strip. by rewrite lstrip_all_space. Qed.

Lemma split_not_nil sep s : split sep s ≠ [].
Proof.
  destruct s as [|c r]; [done|]. simpl.
  destruct (Ascii.eqb c sep); [done|]. by destruct (split sep r).
Qed.

(** The last segment of [split] is what follows the last separator. *)
Lemma split_last_shape sep s :
  ∃ seg,
    last (split sep s) = Some seg ∧
    has_char sep seg = false ∧
    ((split sep s = [seg] ∧ s = seg) ∨
     (∃ p x y ys, split sep s = x :: y :: ys ∧ s = p ++ String sep seg)).
Proof.
  induction s as [|c r (seg & Hl & Hn & Hs)].
  - exists "". simpl. auto.
  - simpl. destruct (Ascii.eqb c sep) eqn:Hc.
    + apply Ascii.eqb_eq in Hc as ->. exists seg.
      destruct Hs as [[Hx ->]|(p & x & y & ys & Hx & ->)]; rewrite Hx in *.
      * split_and!; [done..|]. right. by exists "", "", seg, [].
      * split_and!; [done..|]. right. by exists (String sep p), "", x, (y :: ys).
    + destruct Hs as [[Hx ->]|(p & x & y & ys & Hx & ->)]; rewrite Hx in *.
      * exists (String c seg). simpl. rewrite Hc, Hn. auto.
      * exists seg. split_and!; [done..|].
        right. by exists (String c p), (String c x), y, ys.
Qed.

Lemma split_last sep s :
  ∃ seg,
    last (split sep s) = Some seg ∧
    has_char sep seg = false ∧
    (s = seg ∨ ∃ p, s = p ++ String sep seg).
Proof.
  destruct (split_last_shape sep s) as (seg & Hl & Hn & Hs).
  exists seg. split_and!; [done..|].
  destruct Hs as [[_ ->]|(p & _ & _ & _ & _ & ->)]; eauto.
Qed.

(** ** Header resolver *)

Lemma find_phrase_existsb h ps :
  find_phrase h ps = existsb (λ p, str_in p h) ps.
Proof.
  induction ps as [|p ps IH]; [done|]. simpl. rewrite IH.
  by destruct (str_in p h).
Qed.

(** The order of the phrases plays no part in the answer. *)
Lemma find_phrase_perm h ps ps' :
  ps ≡ₚ ps' → find_phrase h ps = find_phrase h ps'.
Proof.
  intros Hp. rewrite !find_phrase_existsb.
  induction Hp as [|x l l' _ IH|x y l|l l' l'' _ IH1 _ IH2]; simpl.
  - done.
  - by rewrite IH.
  - by destruct (str_in x h), (str_in y h).
  - congruence.
Qed.

Lemma find_column_from_perm i header ps ps' :
  ps ≡ₚ ps' → _find_column_from i header ps = _find_column_from i header ps'.
Proof.
  intros Hp. revert i. induction header as [|h hs IH]; intros i; [done|].
  simpl. rewrite (find_phrase_perm _ _ _ Hp). by rewrite IH.
Qed.

(** What [_find_column] returns: the first cell holding any of the phrases. *)
Lemma find_column_from_Some i header ps j :
  _find_column_from i header ps = Some j →
  ∃ k h, j = (i + k)%nat ∧ header !! k = Some h ∧
         find_phrase (upper h) ps = true ∧
         ∀ k' h', (k' < k)%nat → header !! k' = Some h' →
                  find_phrase (upper h') ps = false.
Proof.
  revert i. induction header as [|h hs IH]; intros i; [done|].
  simpl. destruct (find_phrase (upper h) ps) eqn:Hf.
  - intros [= <-]. exists 0%nat, h. split_and!; [lia|done|done|]. lia.
  - intros (k & h0 & -> & Hk & Hh & Hbefore)%IH.
    exists (S k), h0. split_and!; [lia|done|done|].
    intros [|k'] h' Hlt; simpl; [by intros [= <-]|].
    apply Hbefore. lia.
Qed.

(** C1 (defect): the resolver scans the cells in the outer loop and the
    phrases in the inner one, so the first cell holding any phrase wins.
    Here the first-priority phrase CATCHMENT INTENSITY occurs in cell 1, yet
    the field is given cell 0, which holds only the fallback INTENSITY. *)
Theorem find_column_prefers_first_cell :
  _find_column ["RAINFALL INTENSITY"; "CATCHMENT INTENSITY"]
               ["CATCHMENT INTENSITY"; "INTENSITY"] = Some 0%nat ∧
  str_in "CATCHMENT INTENSITY" (upper "RAINFALL INTENSITY") = false ∧
  str_in "CATCHMENT INTENSITY" (upper "CATCHMENT INTENSITY") = true.
Proof. by vm_compute. Qed.

(** ** Table reader *)


(** A row without a first cell stops the read. *)
Lemma read_rows_empty_row cm rows rest data :
  Forall (λ r, r ≠ []) rows →
  read_rows cm (rows ++ [] :: rest)%list data = Raise IndexError.
Proof.
  intros Hrows. revert data.
  induction Hrows as [|row rows' Hrow _ IH]; intros data; [done|].
  destruct row as [|c0 cs]; [done|]. simpl. by destruct (is_None c0).
Qed.





(** C10: a sheet without rows, and a sheet with only its header row, both
    read as the empty list of records. *)
Theorem parsers_accept_empty_input float_repr :
  parse_da_summary float_repr [] = Ok [] ∧
  parse_inlets float_repr [] = Ok [] ∧
  ∀ row0,
    parse_da_summary float_repr [row0] = Ok [] ∧
    parse_inlets float_repr [row0] = Ok [].
Proof. done. Qed.

(** ** Inlet type *)

Lemma extract_inlet_type_falsy float_repr d :
  truthy d = false → _extract_inlet_type float_repr d = "".
Proof. intros H. unfold _extract_inlet_type. by rewrite H. Qed.

(** C2 (as the code has it): a truthy description gives the text after its
    last backslash, trimmed, empty when the description ends in a
    backslash; a falsy description, and so a record without the field,
    gives the empty string. *)
Theorem extract_inlet_type_last_segment float_repr :
  (∀ d, truthy d = false → _extract_inlet_type float_repr d = "") ∧
  (∀ rec : record, rec !! "description" = None →
     _extract_inlet_type float_repr (dict_get rec "description") = "") ∧
  (∀ d, truthy d = true →
     ∃ seg,
       _extract_inlet_type float_repr d = strip seg ∧
       has_char backslash seg = false ∧
       (py_str float_repr d = seg ∨
        ∃ p, py_str float_repr d = p ++ String backslash seg)).
Proof.
  split_and!.
  - apply extract_inlet_type_falsy.
  - intros rec Hrec. unfold dict_get. by rewrite Hrec.
  - intros d Hd. unfold _extract_inlet_type. rewrite Hd. simpl.
    destruct (split_last backslash (py_str float_repr d)) as (seg & Hl & Hn & Hs).
    exists seg. by rewrite Hl.
Qed.

Lemma extract_inlet_type_last_segment_witness :
  truthy (VStr "Inlets\CI Des 2 STD ") = true ∧
  ∃ seg,
    _extract_inlet_type repr_unused (VStr "Inlets\CI Des 2 STD ") = strip seg ∧
    has_char backslash seg = false ∧
    (py_str repr_unused (VStr "Inlets\CI Des 2 STD ") = seg ∨
     ∃ p, py_str repr_unused (VStr "Inlets\CI Des 2 STD ")
          = p ++ String backslash seg).
Proof.
  split; [reflexivity|].
  apply (proj2 (proj2 (extract_inlet_type_last_segment repr_unused))).
  reflexivity.
Defined.

(** C2 fails as worded: a description ending in a backslash has an empty
    last segment, and the code returns it rather than the last non-empty
    one. *)
Lemma extract_inlet_type_trailing_backslash :
  _extract_inlet_type repr_unused (VStr "Inlets\CI Des 2 STD\") = "" ∧
  last_nonempty_segment_trimmed repr_unused (VStr "Inlets\CI Des 2 STD\")
  = "CI Des 2 STD" ∧
  _extract_inlet_type repr_unused (VStr "Inlets\CI Des 2 STD\")
  ≠ last_nonempty_segment_trimmed repr_unused (VStr "Inlets\CI Des 2 STD\").
Proof. by vm_compute. Qed.

(** ** Station and offset *)

Lemma string_app_cons c (a b : string) : String c a ++ b = String c (a ++ b).
Proof. done. Qed.

Lemma string_app_length (a b : string) :
  String.length (a ++ b) = (String.length a + String.length b)%nat.
Proof.
  induction a as [|c a IH]; [done|].
  rewrite string_app_cons. simpl. by rewrite IH.
Qed.

Lemma string_app_assoc (a b c : string) : (a ++ b) ++ c = a ++ b ++ c.
Proof.
  induction a as [|x a IH]; [done|].
  by rewrite !string_app_cons, IH.
Qed.

Lemma format_station_offset_shown float_repr station offset :
  offset_shown offset = true →
  _format_station_offset float_repr station offset
  = (if is_None station then "" else py_str float_repr station ++ ", ")
    ++ "Offset: " ++ py_str float_repr offset.
Proof.
  intros Ho. unfold _format_station_offset. fold (offset_shown offset).
  rewrite Ho. destruct (is_None station); simpl; [done|].
  by rewrite string_app_assoc.
Qed.

Lemma format_station_offset_hidden float_repr station offset :
  offset_shown offset = false →
  _format_station_offset float_repr station offset
  = station_text float_repr station.
Proof.
  intros Ho. unfold _format_station_offset, station_text.
  fold (offset_shown offset). rewrite Ho. by destruct (is_None station).
Qed.

(** C7 (as the code has it): with an offset that is present and not 0 the
    display is the station text, a comma and "Offset: OFFSET" -- without
    the comma when the station is absent; otherwise it is the station text
    alone, empty when the station is absent too.  The display differs from
    the station text exactly when the offset is present and not 0. *)
Theorem format_station_offset_suffix float_repr station offset :
  (offset_shown offset = true →
     _format_station_offset float_repr station offset
     = (if is_None station then "" else py_str float_repr station ++ ", ")
       ++ "Offset: " ++ py_str float_repr offset) ∧
  (offset_shown offset = false →
     _format_station_offset float_repr station offset
     = station_text float_repr station) ∧
  (_format_station_offset float_repr station offset
   ≠ station_text float_repr station ↔ offset_shown offset = true) ∧
  _format_station_offset float_repr VNone VNone = "".
Proof.
  split_and!.
  - apply format_station_offset_shown.
  - apply format_station_offset_hidden.
  - split.
    + intros Hne. destruct (offset_shown offset) eqn:Ho; [done|].
      by rewrite format_station_offset_hidden in Hne.
    + intros Ho Heq. rewrite format_station_offset_shown in Heq by done.
      apply (f_equal String.length) in Heq. unfold station_text in Heq.
      destruct (is_None station); rewrite ?string_app_length in Heq;
        simpl in Heq; lia.
  - done.
Qed.

Lemma format_station_offset_suffix_witness :
  offset_shown (VInt 5) = true ∧
  _format_station_offset repr_unused (VStr "12+50.00") (VInt 5)
  = (if is_None (VStr "12+50.00") then ""
     else py_str repr_unused (VStr "12+50.00") ++ ", ")
    ++ "Offset: " ++ py_str repr_unused (VInt 5).
Proof.
  split; [reflexivity|].
  apply (proj1 (format_station_offset_suffix repr_unused (VStr "12+50.00") (VInt 5))).
  reflexivity.
Defined.

(** C7 fails as worded: with the station absent the offset is reported
    without the leading comma, so the display does not contain
    ", Offset: 5". *)
Lemma format_station_offset_no_comma :
  offset_shown (VInt 5) = true ∧
  _format_station_offset repr_unused VNone (VInt 5) = "Offset: 5" ∧
  str_in ", Offset: 5" (_format_station_offset repr_unused VNone (VInt 5))
  = false.
Proof. by vm_compute. Qed.

(** ** Sum of the flows *)

Lemma truthy_py_or a b : truthy (py_or a b) = truthy a || truthy b.
Proof. unfold py_or. by destruct (truthy a) eqn:Ha; rewrite ?Ha. Qed.

(** A number that is not truthy is a zero, so reading it as 0 keeps its
    value. *)
Lemma falsy_number_is_zero v :
  truthy v = false →
  match v with
  | VInt z => z = 0%Z
  | VFloat f => PrimFloat.eqb f 0%float = true
  | _ => True
  end.
Proof.
  destruct v as [|b|z|f|s]; simpl; try done.
  - intros H%negb_false_iff. by apply Z.eqb_eq.
  - by intros H%negb_false_iff.
Qed.








Lemma py_or_zero_not_text v :
  nonempty_text v = false →
  match py_or v (VInt 0) with VStr _ => False | _ => True end.
Proof.
  destruct v as [|[]|z|f|s]; unfold py_or; simpl; try done.
  - by destruct (z =? 0)%Z.
  - by destruct (PrimFloat.eqb f 0).
  - intros H. apply negb_false_iff in H. by rewrite H.
Qed.

(** A non-empty text in exactly one of the two flow cells: the sum
    raises. *)
Lemma sum_q_one_text (rec : record) :
  nonempty_text (dict_get rec "flow_captured")
  ≠ nonempty_text (dict_get rec "flow_total_bypassed") →
  sum_q rec = Raise TypeError.
Proof.
  set (c := dict_get rec "flow_captured").
  set (b := dict_get rec "flow_total_bypassed").
  unfold sum_q. fold c b. cbv zeta. rewrite truthy_py_or.
  destruct (nonempty_text c) eqn:Hc, (nonempty_text b) eqn:Hb; try done;
    intros _.
  - pose proof (py_or_zero_not_text b Hb) as Hb'.
    destruct c as [| | | |s]; try done. simpl in Hc.
    assert (py_or (VStr s) (VInt 0) = VStr s) as ->
      by (unfold py_or; simpl; by rewrite Hc).
    simpl. rewrite Hc. simpl.
    by destruct (py_or b (VInt 0)).
  - pose proof (py_or_zero_not_text c Hc) as Hc'.
    destruct b as [| | | |t]; try done. simpl in Hb.
    assert (py_or (VStr t) (VInt 0) = VStr t) as ->
      by (unfold py_or; simpl; by rewrite Hb).
    simpl. rewrite Hb, orb_true_r.
    by destruct (py_or c (VInt 0)).
Qed.




(** ** Link index *)

Lemma da_by_outflow_foldl float_repr l :
  da_by_outflow float_repr (Some l) = foldl (index_step float_repr) ∅ l.
Proof. by destruct l. Qed.

Lemma last_snoc_filter {A} (f : A → bool) l x :
  last (List.filter f (l ++ [x])) = if f x then Some x else last (List.filter f l).
Proof.
  rewrite List.filter_app. simpl. destruct (f x).
  - apply last_snoc.
  - by rewrite app_nil_r.
Qed.

(** The index holds, under each key, the last record that is stored under
    that key. *)
Lemma da_by_outflow_lookup float_repr l k :
  da_by_outflow float_repr (Some l) !! k
  = last (List.filter
            (λ da, indexed da && String.eqb (link_key float_repr da) k) l).
Proof.
  rewrite da_by_outflow_foldl.
  induction l as [|da l IH] using rev_ind; [done|].
  rewrite foldl_app, last_snoc_filter. simpl.
  unfold index_step at 1. fold (indexed da). fold (link_key float_repr da).
  destruct (indexed da); simpl; [|done].
  destruct (String.eqb_spec (link_key float_repr da) k) as [->|Hne].
  - by rewrite lookup_insert_eq.
  - by rewrite lookup_insert_ne.
Qed.

Lemma da_by_outflow_Some float_repr dd k da :
  da_by_outflow float_repr dd !! k = Some da →
  indexed da = true ∧ link_key float_repr da = k.
Proof.
  destruct dd as [l|]; [|done].
  rewrite da_by_outflow_lookup. intros [l' Hl]%last_Some.
  assert (Hin : In da (List.filter
            (λ da, indexed da && String.eqb (link_key float_repr da) k) l)).
  { rewrite Hl. apply in_or_app. right. by left. }
  apply List.filter_In in Hin as [_ [H1 H2]%andb_true_iff].
  by apply String.eqb_eq in H2.
Qed.

Lemma index_get_str (idx : gmap string record) s :
  index_get idx (VStr s) = idx !! s.
Proof. done. Qed.

(** C3 (as the code has it): a record enters the index exactly when its
    outflow_structure is truthy -- present and not empty before trimming --
    under its trimmed text; a key holds the last such record in input
    order.  Absent and empty values are left out. *)
Theorem link_index_last_writer_wins float_repr (l : list record) :
  (∀ k, da_by_outflow float_repr (Some l) !! k
        = last (List.filter
                  (λ da, indexed da && String.eqb (link_key float_repr da) k) l)) ∧
  (∀ k da, da_by_outflow float_repr (Some l) !! k = Some da →
           da ∈ l ∧ indexed da = true ∧ link_key float_repr da = k) ∧
  (∀ da : record,
     da !! "outflow_structure" = None ∨
     da !! "outflow_structure" = Some VNone ∨
     da !! "outflow_structure" = Some (VStr "") →
     indexed da = false) ∧
  (∀ pre da post,
     l = (pre ++ da :: post)%list → indexed da = true →
     Forall (λ da', indexed da' = false ∨
                    link_key float_repr da' ≠ link_key float_repr da) post →
     da_by_outflow float_repr (Some l) !! link_key float_repr da = Some da).
Proof.
  split_and!.
  - apply da_by_outflow_lookup.
  - intros k da Hk. split; [|by eapply da_by_outflow_Some].
    rewrite da_by_outflow_lookup in Hk. apply last_Some in Hk as [l' Hl].
    apply list_elem_of_In.
    eapply (proj1 (List.filter_In _ _ _)). rewrite Hl.
    apply in_or_app. right. by left.
  - intros da [H|[H|H]]; unfold indexed, dict_get_default; by rewrite H.
  - intros pre da post -> Hda Hpost. rewrite da_by_outflow_lookup.
    rewrite List.filter_app. simpl. rewrite Hda, String.eqb_refl. simpl.
    assert (List.filter
      (λ da0, indexed da0
              && String.eqb (link_key float_repr da0) (link_key float_repr da))
      post = []) as ->.
    { induction Hpost as [|x post [Hx|Hx] _ IH]; [done|..]; simpl.
      - by rewrite Hx.
      - apply String.eqb_neq in Hx. rewrite Hx, andb_false_r. done. }
    apply last_snoc.
Qed.

Lemma link_index_last_writer_wins_witness :
  let a : record := <["designation" := VStr "DA-1"]>
                      (<["outflow_structure" := VStr " CI-1 "]> ∅) in
  let b : record := <["designation" := VStr "DA-2"]>
                      (<["outflow_structure" := VStr "CI-1"]> ∅) in
  da_by_outflow repr_unused (Some [a; b]) !! "CI-1" = Some b ∧
  (b ∈ [a; b] ∧ indexed b = true ∧ link_key repr_unused b = "CI-1").
Proof.
  intros a b.
  assert (H : da_by_outflow repr_unused (Some [a; b]) !! "CI-1" = Some b)
    by (vm_compute; reflexivity).
  split; [exact H|].
  exact (proj1 (proj2 (link_index_last_writer_wins repr_unused [a; b])) _ _ H).
Defined.

(** C3 fails as worded: an outflow_structure of blanks only is empty after
    trimming, yet its record is in the index, under the empty key. *)
Lemma link_index_keeps_blank_outflow :
  let da : record := <["outflow_structure" := VStr "  "]> ∅ in
  strip (py_str repr_unused (dict_get da "outflow_structure")) = "" ∧
  da_by_outflow repr_unused (Some [da]) !! "" = Some da.
Proof. by vm_compute. Qed.

(** C9: a drainage-area record whose outflow_structure is made of
    whitespace only passes the presence test and is stored under the empty
    key; an inlet record without structure_no looks up the empty key, and
    so is linked to that record. *)
Theorem blank_outflow_links_to_keyless_inlet float_repr
    (pre : list record) (da inlet : record) (s : string) :
  da !! "outflow_structure" = Some (VStr s) →
  s ≠ "" →
  all_space s = true →
  inlet !! "structure_no" = None →
  indexed da = true ∧
  link_key float_repr da = "" ∧
  dict_get_default inlet "structure_no" (VStr "") = VStr "" ∧
  index_get (da_by_outflow float_repr (Some (pre ++ [da])%list))
            (dict_get_default inlet "structure_no" (VStr "")) = Some da.
Proof.
  intros Hda Hs Hsp Hin.
  assert (Hi : indexed da = true).
  { unfold indexed, dict_get_default. rewrite Hda. simpl.
    apply negb_true_iff. by apply String.eqb_neq. }
  assert (Hk : link_key float_repr da = "").
  { unfold link_key, dict_get_default. rewrite Hda. simpl.
    by apply strip_all_space. }
  assert (Hn : dict_get_default inlet "structure_no" (VStr "") = VStr "")
    by (by unfold dict_get_default; rewrite Hin).
  split_and!; [done..|].
  rewrite Hn, index_get_str, da_by_outflow_lookup, last_snoc_filter, Hi, Hk.
  done.
Qed.

Lemma blank_outflow_links_to_keyless_inlet_witness :
  let da : record := <["designation" := VStr "DA-7"]>
                       (<["outflow_structure" := VStr "  "]> ∅) in
  let inlet : record := <["station" := VStr "1+00"]> ∅ in
  (da !! "outflow_structure" = Some (VStr "  ") ∧ "  " ≠ "" ∧
   all_space "  " = true ∧ inlet !! "structure_no" = None) ∧
  index_get (da_by_outflow repr_unused (Some ([] ++ [da])%list))
            (dict_get_default inlet "structure_no" (VStr "")) = Some da.
Proof.
  intros da inlet.
  assert (H1 : da !! "outflow_structure" = Some (VStr "  ")) by reflexivity.
  assert (H2 : "  " ≠ "") by discriminate.
  assert (H3 : all_space "  " = true) by reflexivity.
  assert (H4 : inlet !! "structure_no" = None) by reflexivity.
  split; [done|].
  exact (proj2 (proj2 (proj2
    (blank_outflow_links_to_keyless_inlet repr_unused [] da inlet "  "
       H1 H2 H3 H4)))).
Defined.

(** ** Drainage Area Summary sheet *)

Local Open Scope nat_scope.

Lemma cells_write_cell ws r c v :
  cells (_write_cell ws r c v) = <[(r, c) := v]> (cells ws).
Proof. done. Qed.

Ltac other_cell :=
  repeat (rewrite lookup_insert_ne by (intros [=]; lia)).

Ltac this_cell := other_cell; apply lookup_insert_eq.

Lemma foldl_cells_frame {A} (f : worksheet → A → worksheet) (l : list A) ws k :
  (∀ ws a, a ∈ l → cells (f ws a) !! k = cells ws !! k) →
  cells (foldl f ws l) !! k = cells ws !! k.
Proof.
  revert ws. induction l as [|a l IH]; intros ws Hf; [done|].
  simpl. rewrite IH by (intros; apply Hf; by right).
  apply Hf. by left.
Qed.

Lemma cells_set_value_ne ws r c v k :
  k ≠ (r, c) → cells (set_value ws r c v) !! k = cells ws !! k.
Proof. intros Hk. unfold set_value. simpl. by rewrite lookup_insert_ne. Qed.

Lemma cells_merge_cells ws r1 c1 r2 c2 :
  cells (merge_cells ws r1 c1 r2 c2) = cells ws.
Proof. done. Qed.

Ltac header_cell :=
  repeat first
    [ rewrite cells_merge_cells
    | rewrite cells_set_value_ne by (intros [=]; lia) ].

Lemma da_header_rows_below title r c :
  5 ≤ r → cells (da_header_rows (create_sheet title)) !! (r, c) = None.
Proof.
  intros Hr. unfold da_header_rows. cbv zeta.
  repeat first
    [ rewrite foldl_cells_frame by (intros; cbv zeta; by header_cell)
    | progress header_cell ].
  done.
Qed.

Lemma da_data_row_other ws r rec r' c :
  r' ≠ r → cells (da_data_row ws r rec) !! (r', c) = cells ws !! (r', c).
Proof.
  intros Hr. unfold da_data_row, _write_cell, set_value. simpl.
  by other_cell.
Qed.

Lemma da_data_row_values ws r rec :
  let row := cells (da_data_row ws r rec) in
  row !! (r, 1) = Some (dict_get rec "designation") ∧
  row !! (r, 2) = Some (dict_get rec "area_acres") ∧
  row !! (r, 3) = Some (dict_get rec "tc_min") ∧
  row !! (r, 4) = Some (dict_get rec "runoff_coeff") ∧
  row !! (r, 5) = Some (dict_get rec "intensity") ∧
  row !! (r, 9) = Some (dict_get rec "flow_cfs") ∧
  (∀ c, 6 ≤ c ≤ 8 ∨ 10 ≤ c ≤ 12 → row !! (r, c) = Some VNone) ∧
  (∀ c, c = 0 ∨ 12 < c → row !! (r, c) = cells ws !! (r, c)).
Proof.
  unfold da_data_row, _write_cell, set_value. simpl.
  split_and!; try this_cell.
  - intros c Hc.
    assert (c = 6 ∨ c = 7 ∨ c = 8 ∨ c = 10 ∨ c = 11 ∨ c = 12) as Hcs by lia.
    destruct Hcs as [->|[->|[->|[->|[->| ->]]]]]; this_cell.
  - intros c Hc. by other_cell.
Qed.

Lemma da_data_rows_outside l ws r r' c :
  r' < r ∨ r + length l ≤ r' →
  cells (da_data_rows ws r l) !! (r', c) = cells ws !! (r', c).
Proof.
  revert ws r. induction l as [|rec l IH]; intros ws r Hr; [done|].
  simpl in *. rewrite IH by lia. apply da_data_row_other. lia.
Qed.

Lemma da_data_rows_row l ws r i rec :
  l !! i = Some rec →
  ∃ ws0, (∀ c, cells ws0 !! (r + i, c) = cells ws !! (r + i, c)) ∧
         ∀ c, cells (da_data_rows ws r l) !! (r + i, c)
              = cells (da_data_row ws0 (r + i) rec) !! (r + i, c).
Proof.
  revert ws r i. induction l as [|x l IH]; intros ws r i Hi; [done|].
  destruct i as [|i]; simpl in *.
  - injection Hi as ->. exists ws. rewrite Nat.add_0_r. split; [done|].
    intros c. apply da_data_rows_outside. lia.
  - destruct (IH (da_data_row ws r x) (S r) i Hi) as (ws0 & Hws0 & Hrow).
    replace (r + S i) with (S r + i) by lia.
    exists ws0. split; [|done].
    intros c. rewrite Hws0. apply da_data_row_other. lia.
Qed.

(** C8: the sheet has one data row per record, row 5 + i for record i;
    that row carries the record's intensity in column E and its flow in
    column I, None in columns F to H and J to L, and no cell is written
    below the last record. *)
Theorem da_sheet_single_frequency (da_data : list record) :
  let ws := create_da_summary_sheet da_data in
  (∀ i rec, da_data !! i = Some rec →
     cells ws !! (5 + i, 1) = Some (dict_get rec "designation") ∧
     cells ws !! (5 + i, 5) = Some (dict_get rec "intensity") ∧
     cells ws !! (5 + i, 9) = Some (dict_get rec "flow_cfs") ∧
     (∀ c, 6 ≤ c ≤ 8 ∨ 10 ≤ c ≤ 12 → cells ws !! (5 + i, c) = Some VNone) ∧
     (∀ c, c = 0 ∨ 12 < c → cells ws !! (5 + i, c) = None)) ∧
  (∀ r c, 5 + length da_data ≤ r → cells ws !! (r, c) = None).
Proof.
  unfold create_da_summary_sheet. split.
  - intros i rec Hi.
    destruct (da_data_rows_row da_data
                (da_header_rows (create_sheet "Drainage Area Summary")) 5 i rec Hi)
      as (ws0 & Hws0 & Hrow).
    destruct (da_data_row_values ws0 (5 + i) rec)
      as (H1 & _ & _ & _ & H5 & H9 & Hblank & Hout).
    rewrite !Hrow. split_and!; [done..| |].
    + intros c Hc. rewrite Hrow. by apply Hblank.
    + intros c Hc. rewrite Hrow, Hout, Hws0 by done.
      apply da_header_rows_below. lia.
  - intros r c Hr. rewrite da_data_rows_outside by lia.
    apply da_header_rows_below. lia.
Qed.

Lemma da_sheet_single_frequency_witness :
  let rec : record := <["designation" := VStr "DA-2"]>
                        (<["intensity" := VInt 9]>
                           (<["flow_cfs" := VInt 4]> ∅)) in
  [rec] !! 0 = Some rec ∧
  cells (create_da_summary_sheet [rec]) !! (5 + 0, 5) = Some (VInt 9) ∧
  cells (create_da_summary_sheet [rec]) !! (5 + 0, 9) = Some (VInt 4).
Proof.
  intros rec.
  assert (H : [rec] !! 0 = Some rec) by reflexivity.
  destruct (proj1 (da_sheet_single_frequency [rec]) 0 rec H)
    as (_ & H5 & H9 & _).
  split; [exact H|]. split; [exact H5|exact H9].
Defined.

(** ** Inlet Design Record sheet *)

Lemma indexed_dict_truthy (da : record) :
  indexed da = true → dict_truthy da = true.
Proof.
  unfold indexed, dict_get_default, dict_truthy. intros H.
  apply negb_true_iff, bool_decide_eq_false. intros ->.
  by rewrite lookup_empty in H.
Qed.

(** Every key of the index is a trimmed text. *)
Lemma da_by_outflow_key_stripped float_repr dd k da :
  da_by_outflow float_repr dd !! k = Some da → strip k = k.
Proof.
  intros [_ <-]%da_by_outflow_Some. unfold link_key. apply strip_idemp.
Qed.

Lemma linked_field_found float_repr dd v da k :
  index_get (da_by_outflow float_repr dd) v = Some da →
  linked_field (Some da) k = dict_get da k.
Proof.
  destruct v as [| | | |s]; try done. simpl.
  intros [Hi _]%da_by_outflow_Some.
  unfold linked_field. by rewrite (indexed_dict_truthy _ Hi).
Qed.

Lemma write_cell_title ws r c v : ws_title (_write_cell ws r c v) = ws_title ws.
Proof. done. Qed.

Lemma write_cell_merged ws r c v : merged (_write_cell ws r c v) = merged ws.
Proof. done. Qed.

(** One data row: what each of the columns B to V receives. *)
Lemma inlet_data_row_inv float_repr idx ws r rec ws' :
  inlet_data_row float_repr idx ws r rec = Ok ws' →
  ∃ q, sum_q rec = Ok q ∧
       let struct_no := dict_get_default rec "structure_no" (VStr "") in
       let da_record := index_get idx struct_no in
       (∀ r' c, r' ≠ r → cells ws' !! (r', c) = cells ws !! (r', c)) ∧
       (∀ c, c < 2 ∨ 22 < c → cells ws' !! (r, c) = cells ws !! (r, c)) ∧
       ws_title ws' = ws_title ws ∧
       merged ws' = merged ws ∧
       cells ws' !! (r, 2) = Some struct_no ∧
       cells ws' !! (r, 3) = Some (dict_get rec "alignment") ∧
       cells ws' !! (r, 4)
       = Some (VStr (_format_station_offset float_repr (dict_get rec "station")
                                            (dict_get rec "offset"))) ∧
       cells ws' !! (r, 5)
       = Some (VStr (_extract_inlet_type float_repr (dict_get rec "description"))) ∧
       cells ws' !! (r, 6) = Some (dict_get rec "structure_type") ∧
       cells ws' !! (r, 7) = Some VNone ∧
       cells ws' !! (r, 8) = Some (linked_field da_record "designation") ∧
       cells ws' !! (r, 9) = Some (linked_field da_record "area_acres") ∧
       cells ws' !! (r, 10) = Some (linked_field da_record "runoff_coeff") ∧
       cells ws' !! (r, 11) = Some (linked_field da_record "tc_min") ∧
       cells ws' !! (r, 12) = Some (linked_field da_record "intensity") ∧
       cells ws' !! (r, 13) = Some (dict_get rec "flow_captured") ∧
       cells ws' !! (r, 14) = Some VNone ∧
       cells ws' !! (r, 15) = Some VNone ∧
       cells ws' !! (r, 16) = Some (dict_get rec "flow_total_bypassed") ∧
       cells ws' !! (r, 17) = Some q ∧
       cells ws' !! (r, 18) = Some VNone ∧
       cells ws' !! (r, 19) = Some (dict_get rec "max_spread") ∧
       cells ws' !! (r, 20) = Some (dict_get rec "flow_bypassed_rational") ∧
       cells ws' !! (r, 21) = Some (dict_get rec "bypass_target") ∧
       cells ws' !! (r, 22) = Some VNone.
Proof.
  unfold inlet_data_row. cbv zeta. destruct (sum_q rec) as [q|e]; [|done].
  cbn [mbind result_bind]. intros [= <-]. exists q. split; [done|].
  rewrite !write_cell_title, !write_cell_merged, !cells_write_cell.
  split_and!; try done; try this_cell.
  - intros r' c Hr. by other_cell.
  - intros c Hc. by other_cell.
Qed.

(** The data rows leave the title, the merged ranges, the rows outside
    their range and the columns outside B to V alone. *)
Lemma inlet_data_rows_frame float_repr idx l ws r ws' :
  inlet_data_rows float_repr idx ws r l = Ok ws' →
  ws_title ws' = ws_title ws ∧ merged ws' = merged ws ∧
  ∀ r' c, r' < r ∨ r + length l ≤ r' ∨ c < 2 ∨ 22 < c →
          cells ws' !! (r', c) = cells ws !! (r', c).
Proof.
  revert ws r. induction l as [|rec l IH]; intros ws r; simpl.
  - by intros [= <-].
  - destruct (inlet_data_row float_repr idx ws r rec) as [w1|e] eqn:Hrow; [|done].
    cbn [mbind result_bind]. intros Hrest.
    destruct (IH _ _ Hrest) as (Ht & Hm & Hc).
    apply inlet_data_row_inv in Hrow
      as (q & _ & Hrows & Hcols & Ht1 & Hm1 & _).
    rewrite Ht, Hm. split_and!; [done..|].
    intros r' c Hrc. rewrite Hc by lia.
    destruct (decide (r' = r)) as [->|Hne]; [apply Hcols; lia|by apply Hrows].
Qed.

Lemma inlet_data_rows_row float_repr idx l ws r ws' i rec :
  inlet_data_rows float_repr idx ws r l = Ok ws' →
  l !! i = Some rec →
  ∃ ws0 ws1,
    inlet_data_row float_repr idx ws0 (r + i) rec = Ok ws1 ∧
    (∀ c, cells ws0 !! (r + i, c) = cells ws !! (r + i, c)) ∧
    ∀ c, cells ws' !! (r + i, c) = cells ws1 !! (r + i, c).
Proof.
  revert ws r i. induction l as [|x l IH]; intros ws r i; [done|]. simpl.
  destruct (inlet_data_row float_repr idx ws r x) as [w1|e] eqn:Hrow; [|done].
  cbn [mbind result_bind]. intros Hrest Hi. destruct i as [|i]; simpl in Hi.
  - injection Hi as ->. exists ws, w1. rewrite Nat.add_0_r.
    split_and!; [done..|].
    intros c. apply (inlet_data_rows_frame _ _ _ _ _ _ Hrest). lia.
  - destruct (IH _ _ _ Hrest Hi) as (ws0 & ws1 & H0 & Hsame & H1).
    replace (r + S i) with (S r + i) by lia.
    exists ws0, ws1. split_and!; [done| |done].
    intros c. rewrite Hsame.
    apply inlet_data_row_inv in Hrow as (q & _ & Hrows & _).
    apply Hrows. lia.
Qed.

(** The data rows are written up to the first record whose sum of flows
    cannot be computed. *)
Lemma inlet_data_rows_result float_repr idx l ws r :
  match inlet_data_rows float_repr idx ws r l with
  | Ok _ => Forall (λ rec, ∃ q, sum_q rec = Ok q) l
  | Raise e =>
      ∃ i rec, l !! i = Some rec ∧ sum_q rec = Raise e ∧
               ∀ j rec', j < i → l !! j = Some rec' → ∃ q, sum_q rec' = Ok q
  end.
Proof.
  revert ws r. induction l as [|x l IH]; intros ws r; simpl; [done|].
  destruct (inlet_data_row float_repr idx ws r x) as [w1|e] eqn:Hrow.
  - cbn [mbind result_bind].
    apply inlet_data_row_inv in Hrow as (q & Hq & _).
    specialize (IH w1 (S r)).
    destruct (inlet_data_rows float_repr idx w1 (S r) l) as [w2|e].
    + constructor; eauto.
    + destruct IH as (i & rec & Hi & He & Hbefore).
      exists (S i), rec. split_and!; [done..|].
      intros [|j] rec' Hj Hl; simpl in Hl; [injection Hl as <-; eauto|].
      eapply Hbefore; [|done]. lia.
  - cbn [mbind result_bind].
    exists 0, x. split_and!; [done| |intros; lia].
    unfold inlet_data_row in Hrow. cbv zeta in Hrow.
    destruct (sum_q x) as [q|e']; [done|].
    cbn [mbind result_bind] in Hrow. by injection Hrow as ->.
Qed.

(** The header block of the inlet sheet. *)
Lemma foldl_merged {A} (f : worksheet → A → worksheet)
    (g : A → (nat * nat) * (nat * nat)) (l : list A) ws :
  (∀ ws a, merged (f ws a) = (merged ws ++ [g a])%list) →
  merged (foldl f ws l) = (merged ws ++ map g l)%list.
Proof.
  intros Hf. revert ws. induction l as [|a l IH]; intros ws; simpl.
  - by rewrite app_nil_r.
  - by rewrite IH, Hf, <-app_assoc.
Qed.

Lemma foldl_title {A} (f : worksheet → A → worksheet) (l : list A) ws :
  (∀ ws a, ws_title (f ws a) = ws_title ws) →
  ws_title (foldl f ws l) = ws_title ws.
Proof.
  intros Hf. revert ws. induction l as [|a l IH]; intros ws; simpl; [done|].
  by rewrite IH, Hf.
Qed.

Lemma foldl_header_cell {A} (row : nat) (col : A → nat) (text : A → string)
    (f : worksheet → A → worksheet) (l : list A) ws a :
  (∀ ws a, cells (f ws a) = <[(row, col a) := VStr (text a)]> (cells ws)) →
  NoDup (col <$> l) → a ∈ l →
  cells (foldl f ws l) !! (row, col a) = Some (VStr (text a)).
Proof.
  intros Hf. revert ws. induction l as [|b l IH]; intros ws Hnd Ha.
  - by apply elem_of_nil in Ha.
  - rewrite fmap_cons in Hnd. apply NoDup_cons in Hnd as [Hb Hnd]. simpl.
    apply elem_of_cons in Ha as [->|Ha]; [|by apply IH].
    rewrite foldl_cells_frame.
    + rewrite Hf. apply lookup_insert_eq.
    + intros ws0 c Hc. rewrite Hf. apply lookup_insert_ne.
      intros [= Heq]. apply Hb. rewrite <-Heq. by apply list_elem_of_fmap_2.
Qed.

Lemma COLUMNS_NoDup : NoDup ((λ col : nat * string * bool, col.1.1) <$> COLUMNS).
Proof. apply (bool_decide_unpack _). by vm_compute. Qed.

Lemma inlet_header_rows_cells title :
  let ws := inlet_header_rows (create_sheet title) in
  ws_title ws = title ∧
  merged ws = ((1, 2), (1, 22))
              :: map (λ col : nat * string * bool,
                        ((2, col.1.1), (4, col.1.1))) COLUMNS ∧
  cells ws !! (1, 2) = Some (VStr "DRAINAGE STRUCTURE DESIGN RECORD - INLETS") ∧
  (∀ col, col ∈ COLUMNS → cells ws !! (2, col.1.1) = Some (VStr col.1.2)) ∧
  (∀ r c, 2 < r ∨ c < 2 ∨ 22 < c → cells ws !! (r, c) = None).
Proof.
  unfold inlet_header_rows. cbv zeta. split_and!.
  - by rewrite foldl_title.
  - by rewrite (foldl_merged _ (λ col : nat * string * bool,
                                  ((2, col.1.1), (4, col.1.1)))).
  - rewrite foldl_cells_frame.
    + header_cell. unfold set_value. simpl. apply lookup_insert_eq.
    + intros ws a _. cbv zeta. by header_cell.
  - intros col Hcol.
    apply (foldl_header_cell 2 (λ col : nat * string * bool, col.1.1)
             (λ col : nat * string * bool, col.1.2)); [done| |done].
    apply COLUMNS_NoDup.
  - intros r c Hrc. rewrite foldl_cells_frame.
    + destruct (decide ((r, c) = (1, 2))) as [[= -> ->]|Hne]; [lia|].
      rewrite cells_set_value_ne by done. by rewrite cells_merge_cells.
    + intros ws col Hcol. cbv zeta.
      rewrite cells_set_value_ne; [by rewrite cells_merge_cells|].
      intros [= -> ->].
      assert (Hall : Forall (λ col : nat * string * bool, 2 ≤ col.1.1 ≤ 22)
                            COLUMNS)
        by (apply (bool_decide_unpack _); by vm_compute).
      rewrite Forall_forall in Hall. specialize (Hall _ Hcol). lia.
Qed.

Lemma proposed_label_cells ws l :
  ws_title (proposed_label ws 5 l) = ws_title ws ∧
  merged (proposed_label ws 5 l)
  = (merged ws ++ if bool_decide (1 < length l)
                  then [((5, 1), (5 + length l - 1, 1))] else [])%list ∧
  (l ≠ [] → cells (proposed_label ws 5 l) !! (5, 1) = Some (VStr "PROPOSED")) ∧
  (∀ r c, l = [] ∨ (r, c) ≠ (5, 1) →
          cells (proposed_label ws 5 l) !! (r, c) = cells ws !! (r, c)).
Proof.
  unfold proposed_label. destruct l as [|x l]; cbv zeta.
  - rewrite bool_decide_eq_false_2 by (simpl; lia).
    by rewrite app_nil_r.
  - split_and!.
    + by destruct (bool_decide _).
    + change (merged (set_value ?w _ _ _)) with (merged w).
      by destruct (bool_decide _); [|rewrite app_nil_r].
    + intros _. unfold set_value. simpl. apply lookup_insert_eq.
    + intros r c [?|Hne]; [done|].
      rewrite cells_set_value_ne by done. by destruct (bool_decide _).
Qed.

(** The sheet before its data rows are written. *)
Lemma inlet_sheet_top float_repr inlet_data da_data ws :
  create_inlet_sheet float_repr inlet_data da_data = Ok ws →
  ∃ ws0,
    inlet_data_rows float_repr (da_by_outflow float_repr da_data) ws0 5 inlet_data
    = Ok ws ∧
    ws_title ws0 = "Inlets" ∧
    merged ws0
    = (((1, 2), (1, 22))
       :: map (λ col : nat * string * bool, ((2, col.1.1), (4, col.1.1))) COLUMNS
       ++ if bool_decide (1 < length inlet_data)
          then [((5, 1), (5 + length inlet_data - 1, 1))] else [])%list ∧
    cells ws0 !! (1, 2)
    = Some (VStr "DRAINAGE STRUCTURE DESIGN RECORD - INLETS") ∧
    (∀ col, col ∈ COLUMNS → cells ws0 !! (2, col.1.1) = Some (VStr col.1.2)) ∧
    (inlet_data ≠ [] → cells ws0 !! (5, 1) = Some (VStr "PROPOSED")) ∧
    (∀ r c, (2 < r ∨ c < 2 ∨ 22 < c) ∧ (inlet_data = [] ∨ (r, c) ≠ (5, 1)) →
            cells ws0 !! (r, c) = None).
Proof.
  unfold create_inlet_sheet. cbv zeta. intros Hws.
  eexists. split; [exact Hws|].
  destruct (inlet_header_rows_cells "Inlets") as (Ht & Hm & H12 & Hcols & Hnone).
  destruct (proposed_label_cells (inlet_header_rows (create_sheet "Inlets"))
              inlet_data) as (Ht' & Hm' & H51 & Hother).
  rewrite Ht', Hm', Ht, Hm. split_and!; [done|done| | |done|].
  - by rewrite Hother by (right; intros [=]).
  - intros col Hcol. rewrite Hother by (right; intros [=]). by apply Hcols.
  - intros r c [Hrc Hne]. rewrite Hother by done. by apply Hnone.
Qed.

(** Row 5 + i of the sheet is the row written for record i. *)
Lemma inlet_sheet_row float_repr inlet_data da_data ws i rec :
  create_inlet_sheet float_repr inlet_data da_data = Ok ws →
  inlet_data !! i = Some rec →
  ∃ ws0 ws1,
    inlet_data_row float_repr (da_by_outflow float_repr da_data) ws0 (5 + i) rec
    = Ok ws1 ∧
    (∀ c, c < 2 ∨ 22 < c →
          cells ws0 !! (5 + i, c)
          = if bool_decide (i = 0 ∧ c = 1) then Some (VStr "PROPOSED") else None) ∧
    ∀ c, cells ws !! (5 + i, c) = cells ws1 !! (5 + i, c).
Proof.
  intros Hws Hi.
  apply inlet_sheet_top in Hws as (wt & Hrows & _ & _ & _ & _ & H51 & Hnone).
  destruct (inlet_data_rows_row _ _ _ _ _ _ _ _ Hrows Hi)
    as (ws0 & ws1 & Hrow & Hsame0 & Hsame).
  exists ws0, ws1. split_and!; [done| |done].
  intros c Hc. rewrite Hsame0. case_bool_decide as Hic.
  - destruct Hic as [-> ->]. apply H51. by intros ->.
  - apply Hnone. split; [lia|]. right. intros [= ? ?]. lia.
Qed.

(** A row whose lookup finds nothing has None in columns H to L. *)
Lemma inlet_row_unlinked float_repr inlet_data da_data ws i rec :
  create_inlet_sheet float_repr inlet_data da_data = Ok ws →
  inlet_data !! i = Some rec →
  index_get (da_by_outflow float_repr da_data)
            (dict_get_default rec "structure_no" (VStr "")) = None →
  ∀ c, 8 ≤ c ≤ 12 → cells ws !! (5 + i, c) = Some VNone.
Proof.
  intros Hws Hi Hnone.
  destruct (inlet_sheet_row _ _ _ _ _ _ Hws Hi) as (ws0 & ws1 & Hrow & _ & Hsame).
  apply inlet_data_row_inv in Hrow
    as (q & _ & _ & _ & _ & _ & _ & _ & _ & _ & _ & _
        & H8 & H9 & H10 & H11 & H12 & _).
  rewrite Hnone in H8, H9, H10, H11, H12.
  intros c Hc. rewrite Hsame.
  assert (c = 8 ∨ c = 9 ∨ c = 10 ∨ c = 11 ∨ c = 12) as Hcs by lia.
  by destruct Hcs as [->|[->|[->|[->| ->]]]].
Qed.

Lemma index_get_empty v : index_get ∅ v = None.
Proof. by destruct v. Qed.

(** C4: the lookup key is structure_no as it stands (the empty string when the
    field is missing).  A structure_no with leading or trailing whitespace
    finds nothing, since every key of the index is trimmed.  When the
    lookup finds a record, columns H to L of the inlet's row hold its
    designation, area, runoff coefficient, Tc and intensity; when it finds
    nothing they hold None. *)
Theorem inlet_row_link_columns float_repr inlet_data da_data ws i rec :
  create_inlet_sheet float_repr inlet_data da_data = Ok ws →
  inlet_data !! i = Some rec →
  let struct_no := dict_get_default rec "structure_no" (VStr "") in
  let found := index_get (da_by_outflow float_repr da_data) struct_no in
  (∀ s, struct_no = VStr s → strip s ≠ s → found = None) ∧
  (∀ da, found = Some da →
     cells ws !! (5 + i, 8) = Some (dict_get da "designation") ∧
     cells ws !! (5 + i, 9) = Some (dict_get da "area_acres") ∧
     cells ws !! (5 + i, 10) = Some (dict_get da "runoff_coeff") ∧
     cells ws !! (5 + i, 11) = Some (dict_get da "tc_min") ∧
     cells ws !! (5 + i, 12) = Some (dict_get da "intensity")) ∧
  (found = None →
     cells ws !! (5 + i, 8) = Some VNone ∧
     cells ws !! (5 + i, 9) = Some VNone ∧
     cells ws !! (5 + i, 10) = Some VNone ∧
     cells ws !! (5 + i, 11) = Some VNone ∧
     cells ws !! (5 + i, 12) = Some VNone).
Proof.
  intros Hws Hi struct_no found.
  destruct (inlet_sheet_row _ _ _ _ _ _ Hws Hi) as (ws0 & ws1 & Hrow & _ & Hsame).
  apply inlet_data_row_inv in Hrow
    as (q & _ & _ & _ & _ & _ & _ & _ & _ & _ & _ & _
        & H8 & H9 & H10 & H11 & H12 & _).
  fold struct_no in H8, H9, H10, H11, H12.
  fold found in H8, H9, H10, H11, H12.
  rewrite !Hsame. split_and!.
  - intros s Hs Hne. subst found. rewrite Hs, index_get_str.
    destruct (da_by_outflow float_repr da_data !! s) as [da|] eqn:Hda; [|done].
    by apply da_by_outflow_key_stripped in Hda.
  - intros da Hda. rewrite H8, H9, H10, H11, H12, Hda.
    subst found. by rewrite !(linked_field_found _ _ _ _ _ Hda).
  - intros Hnone. by rewrite H8, H9, H10, H11, H12, Hnone.
Qed.

Lemma inlet_row_link_columns_witness :
  let da : record := <["outflow_structure" := VStr " D-1 "]>
                       (<["designation" := VStr "DA-1"]>
                          (<["intensity" := VInt 6]> ∅)) in
  let inlet : record := <["structure_no" := VStr "D-1"]> ∅ in
  ∃ ws,
    (create_inlet_sheet repr_unused [inlet] (Some [da]) = Ok ws ∧
     [inlet] !! 0 = Some inlet) ∧
    cells ws !! (5 + 0, 8) = Some (dict_get da "designation") ∧
    cells ws !! (5 + 0, 12) = Some (dict_get da "intensity").
Proof.
  intros da inlet.
  destruct (create_inlet_sheet repr_unused [inlet] (Some [da])) as [ws|e] eqn:Hws;
    [|vm_compute in Hws; discriminate Hws].
  assert (Hi : [inlet] !! 0 = Some inlet) by reflexivity.
  assert (Hf : index_get (da_by_outflow repr_unused (Some [da]))
                 (dict_get_default inlet "structure_no" (VStr "")) = Some da)
    by (vm_compute; reflexivity).
  exists ws. split; [split; [reflexivity|exact Hi]|].
  destruct (inlet_row_link_columns repr_unused [inlet] (Some [da]) ws 0 inlet Hws Hi)
    as (_ & Hfound & _).
  destruct (Hfound da Hf) as (H8 & _ & _ & _ & H12).
  split; [exact H8|exact H12].
Defined.

(** X2: the keys of the link index are texts, and the lookup does not convert
    its key: an inlet whose structure_no cell holds a number, a boolean or
    None is linked to no drainage area, whatever the drainage-area data
    holds, and columns H to L of its row hold None. *)
Theorem non_text_structure_no_never_links float_repr inlet_data da_data ws i rec :
  create_inlet_sheet float_repr inlet_data da_data = Ok ws →
  inlet_data !! i = Some rec →
  (∀ s, dict_get_default rec "structure_no" (VStr "") ≠ VStr s) →
  index_get (da_by_outflow float_repr da_data)
            (dict_get_default rec "structure_no" (VStr "")) = None ∧
  ∀ c, 8 ≤ c ≤ 12 → cells ws !! (5 + i, c) = Some VNone.
Proof.
  intros Hws Hi Hns.
  assert (Hnone : index_get (da_by_outflow float_repr da_data)
                    (dict_get_default rec "structure_no" (VStr "")) = None).
  { destruct (dict_get_default rec "structure_no" (VStr "")) as [| | | |s];
      try done. by destruct (Hns s). }
  split; [done|]. by apply (inlet_row_unlinked _ _ _ _ _ _ Hws Hi).
Qed.

Lemma non_text_structure_no_never_links_witness :
  let da : record := <["outflow_structure" := VInt 101]>
                       (<["designation" := VStr "DA-1"]> ∅) in
  let inlet : record := <["structure_no" := VInt 101]> ∅ in
  ∃ ws,
    (create_inlet_sheet repr_unused [inlet] (Some [da]) = Ok ws ∧
     [inlet] !! 0 = Some inlet ∧
     da_by_outflow repr_unused (Some [da]) !! "101" = Some da) ∧
    cells ws !! (5 + 0, 8) = Some VNone.
Proof.
  intros da inlet.
  destruct (create_inlet_sheet repr_unused [inlet] (Some [da])) as [ws|e] eqn:Hws;
    [|vm_compute in Hws; discriminate Hws].
  assert (Hi : [inlet] !! 0 = Some inlet) by reflexivity.
  assert (Hns : ∀ s, dict_get_default inlet "structure_no" (VStr "") ≠ VStr s)
    by (intros s; vm_compute; discriminate).
  assert (Hda : da_by_outflow repr_unused (Some [da]) !! "101" = Some da)
    by (vm_compute; reflexivity).
  exists ws. split; [split_and!; [reflexivity|exact Hi|exact Hda]|].
  apply (non_text_structure_no_never_links repr_unused [inlet] (Some [da]) ws 0 inlet
           Hws Hi Hns).
  lia.
Defined.

(** X3: row 5 + i of the inlet sheet is the row of record i: columns B to F,
    M, P and S to U carry the record's own fields, D and E the
    station/offset text and the inlet type, Q the sum of flows; G, N, O, R
    and V hold None; column A holds the PROPOSED label in the first data
    row only, and nothing is written right of column V. *)
Theorem inlet_sheet_row_layout float_repr inlet_data da_data ws i rec :
  create_inlet_sheet float_repr inlet_data da_data = Ok ws →
  inlet_data !! i = Some rec →
  cells ws !! (5 + i, 2) = Some (dict_get_default rec "structure_no" (VStr "")) ∧
  cells ws !! (5 + i, 3) = Some (dict_get rec "alignment") ∧
  cells ws !! (5 + i, 4)
  = Some (VStr (_format_station_offset float_repr (dict_get rec "station")
                                       (dict_get rec "offset"))) ∧
  cells ws !! (5 + i, 5)
  = Some (VStr (_extract_inlet_type float_repr (dict_get rec "description"))) ∧
  cells ws !! (5 + i, 6) = Some (dict_get rec "structure_type") ∧
  cells ws !! (5 + i, 13) = Some (dict_get rec "flow_captured") ∧
  cells ws !! (5 + i, 16) = Some (dict_get rec "flow_total_bypassed") ∧
  Ok <$> cells ws !! (5 + i, 17) = Some (sum_q rec) ∧
  cells ws !! (5 + i, 19) = Some (dict_get rec "max_spread") ∧
  cells ws !! (5 + i, 20) = Some (dict_get rec "flow_bypassed_rational") ∧
  cells ws !! (5 + i, 21) = Some (dict_get rec "bypass_target") ∧
  (∀ c, c ∈ [7; 14; 15; 18; 22] → cells ws !! (5 + i, c) = Some VNone) ∧
  cells ws !! (5 + i, 1) = (if bool_decide (i = 0) then Some (VStr "PROPOSED")
                            else None) ∧
  (∀ c, c = 0 ∨ 22 < c → cells ws !! (5 + i, c) = None).
Proof.
  intros Hws Hi.
  destruct (inlet_sheet_row _ _ _ _ _ _ Hws Hi)
    as (ws0 & ws1 & Hrow & Hws0 & Hsame).
  apply inlet_data_row_inv in Hrow
    as (q & Hq & _ & Hcols & _ & _ & H2 & H3 & H4 & H5 & H6 & H7 & _ & _ & _ & _
        & _ & H13 & H14 & H15 & H16 & H17 & H18 & H19 & H20 & H21 & H22).
  rewrite !Hsame, Hq, H17. split_and!; try done.
  - intros c Hc. rewrite Hsame.
    repeat (apply elem_of_cons in Hc as [->|Hc]; [done|]).
    by apply elem_of_nil in Hc.
  - rewrite Hcols, Hws0 by lia.
    by repeat case_bool_decide; try done; lia.
  - intros c Hc. rewrite Hsame, Hcols, Hws0 by lia.
    rewrite bool_decide_eq_false_2; [done|lia].
Qed.

Lemma inlet_sheet_row_layout_witness :
  let a : record := <["structure_no" := VStr "CI-1"]>
                      (<["flow_captured" := VInt 2]> ∅) in
  let b : record := <["structure_no" := VStr "CI-2"]>
                      (<["max_spread" := VInt 7]> ∅) in
  ∃ ws,
    (create_inlet_sheet repr_unused [a; b] None = Ok ws ∧
     [a; b] !! 1 = Some b) ∧
    cells ws !! (5 + 1, 2) = Some (dict_get_default b "structure_no" (VStr "")) ∧
    cells ws !! (5 + 1, 19) = Some (dict_get b "max_spread") ∧
    cells ws !! (5 + 1, 1) = None.
Proof.
  intros a b.
  destruct (create_inlet_sheet repr_unused [a; b] None) as [ws|e] eqn:Hws;
    [|vm_compute in Hws; discriminate Hws].
  assert (Hi : [a; b] !! 1 = Some b) by reflexivity.
  exists ws. split; [split; [reflexivity|exact Hi]|].
  destruct (inlet_sheet_row_layout repr_unused [a; b] None ws 1 b Hws Hi)
    as (H2 & _ & _ & _ & _ & _ & _ & _ & H19 & _ & _ & _ & H1 & _).
  split_and!; [exact H2|exact H19|exact H1].
Defined.

(** X4: whatever the data, the inlet sheet is titled Inlets, carries the title
    text in B1 and the header text of every column of COLUMNS in row 2,
    and its merged ranges are B1:V1, then rows 2 to 4 of each column B to
    V, then A5 down to the last data row when there is more than one record
    (a single record leaves A5 unmerged).  A5 holds PROPOSED exactly when
    there is a record, and nothing is written below the last data row. *)
Theorem inlet_sheet_header_and_merges float_repr inlet_data da_data ws :
  create_inlet_sheet float_repr inlet_data da_data = Ok ws →
  ws_title ws = "Inlets" ∧
  merged ws
  = (((1, 2), (1, 22))
     :: map (λ col : nat * string * bool, ((2, col.1.1), (4, col.1.1))) COLUMNS
     ++ if bool_decide (1 < length inlet_data)
        then [((5, 1), (5 + length inlet_data - 1, 1))] else [])%list ∧
  cells ws !! (1, 2) = Some (VStr "DRAINAGE STRUCTURE DESIGN RECORD - INLETS") ∧
  (∀ col, col ∈ COLUMNS → cells ws !! (2, col.1.1) = Some (VStr col.1.2)) ∧
  (cells ws !! (5, 1) = Some (VStr "PROPOSED") ↔ inlet_data ≠ []) ∧
  (∀ r c, 5 + length inlet_data ≤ r → (r, c) ≠ (5, 1) → cells ws !! (r, c) = None).
Proof.
  intros Hws.
  apply inlet_sheet_top in Hws
    as (ws0 & Hrows & Ht & Hm & H12 & Hcols & H51 & Hnone).
  apply inlet_data_rows_frame in Hrows as (Ht' & Hm' & Hframe).
  rewrite Ht', Hm', Ht, Hm. split_and!; [done|done| | | |].
  - by rewrite Hframe by lia.
  - intros col Hcol. rewrite Hframe by lia. by apply Hcols.
  - rewrite Hframe by lia. split; [|done].
    intros H Hnil. rewrite Hnone in H; [done|]. split; [lia|by left].
  - intros r c Hr Hne. rewrite Hframe by lia. apply Hnone.
    split; [lia|by right].
Qed.

Lemma inlet_sheet_header_and_merges_witness :
  let a : record := <["structure_no" := VStr "CI-1"]> ∅ in
  ∃ ws,
    create_inlet_sheet repr_unused [a; a; a] None = Ok ws ∧
    last (merged ws) = Some ((5, 1), (7, 1)) ∧
    cells ws !! (2, 4) = Some (VStr "STATION, OFFSET").
Proof.
  intros a.
  destruct (create_inlet_sheet repr_unused [a; a; a] None) as [ws|e] eqn:Hws;
    [|vm_compute in Hws; discriminate Hws].
  exists ws. split; [reflexivity|].
  destruct (inlet_sheet_header_and_merges repr_unused [a; a; a] None ws Hws)
    as (_ & Hm & _ & Hcols & _).
  split.
  - rewrite Hm. reflexivity.
  - apply (Hcols (4, "STATION, OFFSET", false)).
    apply (bool_decide_unpack _). vm_compute. reflexivity.
Defined.

(** X5: a sheet is returned only when the sum of flows of every record
    can be computed; in particular one record with a non-empty text in
    exactly one of its two flow cells is enough for no sheet to be
    returned. *)
Theorem create_inlet_sheet_needs_every_sum float_repr inlet_data da_data ws :
  create_inlet_sheet float_repr inlet_data da_data = Ok ws →
  ∀ rec, rec ∈ inlet_data →
    (∃ q, sum_q rec = Ok q) ∧
    nonempty_text (dict_get rec "flow_captured")
    = nonempty_text (dict_get rec "flow_total_bypassed").
Proof.
  unfold create_inlet_sheet. cbv zeta. intros Hws rec Hrec.
  match type of Hws with
  | inlet_data_rows _ ?idx ?ws0 _ _ = _ =>
      pose proof (inlet_data_rows_result float_repr idx inlet_data ws0 5) as Hres
  end.
  rewrite Hws in Hres. rewrite Forall_forall in Hres.
  destruct (Hres rec Hrec) as [q Hq]. split; [by exists q|].
  destruct (decide (nonempty_text (dict_get rec "flow_captured")
                    = nonempty_text (dict_get rec "flow_total_bypassed")))
    as [Heq|Hne]; [done|].
  rewrite (sum_q_one_text rec Hne) in Hq. done.
Qed.

Lemma create_inlet_sheet_needs_every_sum_witness :
  let a : record := <["structure_no" := VStr "CI-1"]>
                      (<["flow_captured" := VInt 2]> ∅) in
  ∃ ws,
    (create_inlet_sheet repr_unused [a] None = Ok ws ∧ a ∈ [a]) ∧
    ∃ q, sum_q a = Ok q.
Proof.
  intros a.
  destruct (create_inlet_sheet repr_unused [a] None) as [ws|e] eqn:Hws;
    [|vm_compute in Hws; discriminate Hws].
  assert (Ha : a ∈ [a]) by constructor.
  exists ws. split; [split; [reflexivity|exact Ha]|].
  exact (proj1 (create_inlet_sheet_needs_every_sum repr_unused [a] None ws Hws
                  a Ha)).
Defined.

(** X6: text in the flow cells: when exactly one of flow_captured and
    flow_total_bypassed holds a non-empty text the sum raises TypeError, and
    when both do the sum is their concatenation. *)
Theorem sum_q_text_flows (rec : record) :
  let c := dict_get rec "flow_captured" in
  let b := dict_get rec "flow_total_bypassed" in
  (nonempty_text c ≠ nonempty_text b → sum_q rec = Raise TypeError) ∧
  (∀ s t, c = VStr s → b = VStr t → s ≠ "" → t ≠ "" →
          sum_q rec = Ok (VStr (s ++ t)%string)).
Proof.
  intros c b. split.
  - apply sum_q_one_text.
  - intros s t Hc Hb Hs Ht. unfold sum_q. fold c b. rewrite Hc, Hb.
    unfold py_or. simpl. destruct s; [done|]. by destruct t.
Qed.

Lemma sum_q_text_flows_witness :
  let rec : record := <["flow_captured" := VStr "n/a"]>
                        (<["flow_total_bypassed" := VInt 2]> ∅) in
  nonempty_text (dict_get rec "flow_captured")
  ≠ nonempty_text (dict_get rec "flow_total_bypassed") ∧
  sum_q rec = Raise TypeError.
Proof.
  intros rec.
  assert (H : nonempty_text (dict_get rec "flow_captured")
              ≠ nonempty_text (dict_get rec "flow_total_bypassed"))
    by (vm_compute; discriminate).
  split; [exact H|].
  exact (proj1 (sum_q_text_flows rec) H).
Defined.

Lemma dict_get_insert_ne (rec : record) k k' v :
  k ≠ k' → dict_get (<[k := v]> rec) k' = dict_get rec k'.
Proof. intros Hk. unfold dict_get. by rewrite lookup_insert_ne. Qed.

Lemma dict_get_default_insert_ne (rec : record) k k' v d :
  k ≠ k' → dict_get_default (<[k := v]> rec) k' d = dict_get_default rec k' d.
Proof. intros Hk. unfold dict_get_default. by rewrite lookup_insert_ne. Qed.

(** X7: four of the fields the inlet parser reads never reach the sheet: the
    sheet is the same whatever elevation_rim, capture_efficiency, hgl_out
    and egl_out hold. *)
Theorem inlet_sheet_ignores_unused_fields float_repr inlet_data da_data
    (k : string) (f : record → value) :
  k ∈ ["elevation_rim"; "capture_efficiency"; "hgl_out"; "egl_out"] →
  create_inlet_sheet float_repr ((λ rec, <[k := f rec]> rec) <$> inlet_data) da_data
  = create_inlet_sheet float_repr inlet_data da_data.
Proof.
  intros Hk.
  assert (Hrow : ∀ idx ws r rec v,
             inlet_data_row float_repr idx ws r (<[k := v]> rec)
             = inlet_data_row float_repr idx ws r rec).
  { intros idx ws r rec v. unfold inlet_data_row, sum_q.
    repeat (apply elem_of_cons in Hk as [->|Hk];
            [by rewrite !dict_get_insert_ne, !dict_get_default_insert_ne by done|]).
    by apply elem_of_nil in Hk. }
  unfold create_inlet_sheet, proposed_label. cbv zeta.
  rewrite length_fmap.
  set (idx := da_by_outflow float_repr da_data).
  set (top := inlet_header_rows (create_sheet "Inlets")).
  assert (Hrows : ∀ l ws r,
             inlet_data_rows float_repr idx ws r ((λ rec, <[k := f rec]> rec) <$> l)
             = inlet_data_rows float_repr idx ws r l).
  { induction l as [|rec l IH]; intros ws r; simpl; [done|].
    rewrite Hrow. destruct (inlet_data_row float_repr idx ws r rec); [|done].
    cbn [mbind result_bind]. apply IH. }
  rewrite Hrows. by destruct inlet_data.
Qed.

Lemma inlet_sheet_ignores_unused_fields_witness :
  let a : record := <["structure_no" := VStr "CI-1"]> ∅ in
  create_inlet_sheet repr_unused
    ((λ rec, <["hgl_out" := VInt 7]> rec) <$> [a]) None
  = create_inlet_sheet repr_unused [a] None.
Proof.
  intros a.
  apply (inlet_sheet_ignores_unused_fields repr_unused [a] None "hgl_out"
           (λ _, VInt 7)).
  apply (bool_decide_unpack _). vm_compute. reflexivity.
Defined.

(** ** Inlet type and link index *)

Lemma has_char_lstrip c s : has_char c s = false → has_char c (lstrip s) = false.
Proof.
  induction s as [|a r IH]; simpl; [done|].
  intros [Ha Hr]%orb_false_iff. destruct (is_space a); [by apply IH|].
  simpl. by rewrite Ha, Hr.
Qed.

Lemma has_char_rstrip c s : has_char c s = false → has_char c (rstrip s) = false.
Proof.
  induction s as [|a r IH]; [done|].
  intros H. simpl in H. apply orb_false_iff in H as [Ha Hr]. rewrite rstrip_cons.
  specialize (IH Hr). destruct (rstrip r) as [|b r'].
  - destruct (is_space a); [done|]. simpl. by rewrite Ha.
  - simpl in *. by rewrite Ha, IH.
Qed.

(** X8: the inlet type never contains a backslash and carries no surrounding
    whitespace, whatever the description cell holds. *)
Theorem extract_inlet_type_clean float_repr (description : value) :
  has_char backslash (_extract_inlet_type float_repr description) = false ∧
  strip (_extract_inlet_type float_repr description)
  = _extract_inlet_type float_repr description.
Proof.
  unfold _extract_inlet_type. destruct (truthy description); simpl; [|done].
  destruct (split_last backslash (py_str float_repr description))
    as (seg & -> & Hseg & _).
  simpl. split; [|apply strip_idemp].
  unfold strip. by apply has_char_rstrip, has_char_lstrip.
Qed.

(** ** Header resolver and table reader *)

Lemma find_phrase_true h ps :
  find_phrase h ps = true ↔ ∃ p, p ∈ ps ∧ str_in p h = true.
Proof.
  induction ps as [|p ps IH]; simpl.
  - split; [done|]. intros (p & Hp & _). by apply elem_of_nil in Hp.
  - destruct (str_in p h) eqn:Hp.
    + split; [|done]. intros _. exists p. split; [left|done].
    + rewrite IH. split.
      * intros (q & Hq & Hin). exists q. split; [by right|done].
      * intros (q & [->|Hq]%elem_of_cons & Hin); [congruence|eauto].
Qed.

Lemma find_phrase_false h ps :
  find_phrase h ps = false ↔ ∀ p, p ∈ ps → str_in p h = false.
Proof.
  rewrite <-not_true_iff_false, find_phrase_true. split.
  - intros Hno p Hp. apply not_true_iff_false. intros Hin. apply Hno. eauto.
  - intros Hall (p & Hp & Hin). rewrite (Hall p Hp) in Hin. done.
Qed.

Lemma find_column_from_first k header ps n h :
  header !! n = Some h →
  find_phrase (upper h) ps = true →
  (∀ j h', j < n → header !! j = Some h' → find_phrase (upper h') ps = false) →
  _find_column_from k header ps = Some (k + n).
Proof.
  revert k n. induction header as [|x header IH]; intros k n Hn Hh Hbefore;
    [done|].
  simpl. destruct n as [|n]; simpl in Hn.
  - injection Hn as ->. rewrite Hh. f_equal. lia.
  - rewrite (Hbefore 0 x) by (done || lia).
    rewrite (IH (S k) n Hn Hh); [f_equal; lia|].
    intros j h' Hj. apply (Hbefore (S j)). lia.
Qed.

Lemma find_column_from_None k header ps :
  _find_column_from k header ps = None ↔
  ∀ h, h ∈ header → find_phrase (upper h) ps = false.
Proof.
  revert k. induction header as [|x header IH]; intros k; simpl.
  - split; [|done]. intros _ h Hh. by apply elem_of_nil in Hh.
  - destruct (find_phrase (upper x) ps) eqn:Hx.
    + split; [done|]. intros Hall. rewrite (Hall x) in Hx; [done|left].
    + rewrite IH. split.
      * intros Hall h [->|Hh]%elem_of_cons; eauto.
      * intros Hall h Hh. apply Hall. by right.
Qed.

(** X9: the resolver returns the position of the first header cell whose
    upper-cased text contains one of the phrases, so the index is always
    within the header; it returns None exactly when no header cell
    contains any of the phrases. *)
Theorem find_column_first_match (header phrases : list string) :
  (∀ i, _find_column header phrases = Some i ↔
        ∃ h, header !! i = Some h ∧
             (∃ p, p ∈ phrases ∧ str_in p (upper h) = true) ∧
             ∀ j h', j < i → header !! j = Some h' →
                     ∀ p, p ∈ phrases → str_in p (upper h') = false) ∧
  (_find_column header phrases = None ↔
   ∀ h p, h ∈ header → p ∈ phrases → str_in p (upper h) = false).
Proof.
  unfold _find_column. split.
  - intros i. split.
    + intros (k & h & -> & Hk & Hh & Hbefore)%find_column_from_Some.
      exists h. split_and!; [done|by apply find_phrase_true|].
      intros j h' Hj Hh'. apply find_phrase_false. by eapply Hbefore.
    + intros (h & Hi & Hh & Hbefore).
      apply (find_column_from_first 0 header phrases i h); [done| |].
      * by apply find_phrase_true.
      * intros j h' Hj Hh'. apply find_phrase_false. by eapply Hbefore.
  - rewrite find_column_from_None. split.
    + intros Hall h p Hh. by apply find_phrase_false, Hall.
    + intros Hall h Hh. apply find_phrase_false. intros p. by apply Hall.
Qed.

(** X10: the order of the phrases has no effect on the resolver: any
    rearrangement of the phrase list selects the same column. *)
Theorem find_column_phrase_order (header phrases phrases' : list string) :
  phrases ≡ₚ phrases' →
  _find_column header phrases = _find_column header phrases'.
Proof. intros Hp. unfold _find_column. by apply find_column_from_perm. Qed.

Lemma find_column_phrase_order_witness :
  _find_column ["RAINFALL INTENSITY"; "CATCHMENT INTENSITY"]
               ["CATCHMENT INTENSITY"; "INTENSITY"]
  = _find_column ["RAINFALL INTENSITY"; "CATCHMENT INTENSITY"]
                 ["INTENSITY"; "CATCHMENT INTENSITY"].
Proof.
  apply (find_column_phrase_order
           ["RAINFALL INTENSITY"; "CATCHMENT INTENSITY"]
           ["CATCHMENT INTENSITY"; "INTENSITY"]
           ["INTENSITY"; "CATCHMENT INTENSITY"]).
  apply perm_swap.
Defined.

(** X11: the resolver looks at the header through upper(): two headers that
    agree up to letter case resolve to the same column. *)
Theorem find_column_ignores_header_case (header header' phrases : list string) :
  upper <$> header = upper <$> header' →
  _find_column header phrases = _find_column header' phrases.
Proof.
  unfold _find_column. generalize 0.
  revert header'. induction header as [|h header IH]; intros [|h' header'] k;
    try done.
  rewrite !fmap_cons. intros [= Hh Hrest]. simpl. rewrite Hh.
  destruct (find_phrase (upper h') phrases); [done|]. by apply IH.
Qed.

Lemma find_column_ignores_header_case_witness :
  _find_column ["Structure No"; "Station"] ["STATION"]
  = _find_column ["STRUCTURE NO"; "station"] ["STATION"].
Proof.
  apply (find_column_ignores_header_case
           ["Structure No"; "Station"] ["STRUCTURE NO"; "station"] ["STATION"]).
  reflexivity.
Defined.

Lemma read_rows_Ok cm rows data0 data :
  read_rows cm rows data0 = Ok data →
  Forall (λ r, r ≠ []) rows ∧
  data = (data0 ++ map (read_record cm) (List.filter row_present rows))%list.
Proof.
  revert data0. induction rows as [|row rows IH]; intros data0; simpl.
  - intros [= <-]. by rewrite app_nil_r.
  - destruct row as [|c0 row]; [done|]. simpl.
    destruct (is_None c0); simpl; intros [Hall ->]%IH.
    + split; [by constructor|done].
    + split; [by constructor|]. by rewrite <-app_assoc.
Qed.

Lemma read_rows_Raise cm rows data0 e :
  read_rows cm rows data0 = Raise e → e = IndexError ∧ [] ∈ rows.
Proof.
  revert data0. induction rows as [|row rows IH]; intros data0; simpl; [done|].
  destruct row as [|c0 row].
  - intros [= <-]. split; [done|left].
  - destruct (is_None c0); intros [-> Hin]%IH; (split; [done|by right]).
Qed.

(** X12: within the model the two parsers fail in one way only: IndexError, and
    exactly when some row after the header is an empty tuple. *)
Theorem parsers_fail_only_on_empty_row float_repr (rows : list (list value)) :
  (∀ e, parse_da_summary float_repr rows = Raise e ↔
        e = IndexError ∧ [] ∈ tail rows) ∧
  (∀ e, parse_inlets float_repr rows = Raise e ↔
        e = IndexError ∧ [] ∈ tail rows).
Proof.
  assert (H : ∀ cm data_rows e,
             read_rows cm data_rows [] = Raise e ↔
             e = IndexError ∧ [] ∈ data_rows).
  { intros cm data_rows e. split; [apply read_rows_Raise|].
    intros [-> Hin].
    destruct (read_rows cm data_rows []) as [data|e'] eqn:Hr.
    - apply read_rows_Ok in Hr as [Hall _].
      rewrite Forall_forall in Hall. by destruct (Hall [] Hin).
    - by apply read_rows_Raise in Hr as [-> _]. }
  unfold parse_da_summary, parse_inlets.
  destruct rows as [|row0 data_rows]; simpl.
  - split; intros e; (split; [done|]); intros [_ Hin]; by apply elem_of_nil in Hin.
  - split; intros e; apply H.
Qed.

Lemma read_record_foldl_notin (cm : list (string * nat)) row (m : record) k :
  k ∉ cm.*1 →
  foldl (λ rec kv, <[kv.1 := cell_or_None row kv.2]> rec) m cm !! k = m !! k.
Proof.
  revert m. induction cm as [|[k' j'] cm IH]; intros m Hk; simpl; [done|].
  rewrite fmap_cons in Hk. apply not_elem_of_cons in Hk as [Hne Hk].
  rewrite IH by done. by apply lookup_insert_ne.
Qed.

Lemma read_record_foldl_in (cm : list (string * nat)) row (m : record) k j :
  NoDup cm.*1 → (k, j) ∈ cm →
  foldl (λ rec kv, <[kv.1 := cell_or_None row kv.2]> rec) m cm !! k
  = Some (cell_or_None row j).
Proof.
  revert m. induction cm as [|[k' j'] cm IH]; intros m Hnd Hin.
  - by apply elem_of_nil in Hin.
  - rewrite fmap_cons in Hnd. apply NoDup_cons in Hnd as [Hk' Hnd]. simpl.
    apply elem_of_cons in Hin as [[= -> ->]|Hin]; [|by apply IH].
    rewrite read_record_foldl_notin by done. apply lookup_insert_eq.
Qed.

Lemma resolved_elem_of (l : list (string * option nat)) k j :
  (k, j) ∈ resolved l ↔ (k, Some j) ∈ l.
Proof.
  unfold resolved. rewrite list_elem_of_omap. split.
  - intros ([k' [j'|]] & Hin & Heq); simpl in Heq; [|done].
    by injection Heq as -> ->.
  - intros Hin. by exists (k, Some j).
Qed.

Lemma resolved_keys (l : list (string * option nat)) k :
  k ∈ (resolved l).*1 → k ∈ l.*1.
Proof.
  intros ([k' j] & -> & Hin%resolved_elem_of)%list_elem_of_fmap.
  by apply (list_elem_of_fmap_2 fst) in Hin.
Qed.

Lemma resolved_NoDup (l : list (string * option nat)) :
  NoDup l.*1 → NoDup (resolved l).*1.
Proof.
  induction l as [|[k [j|]] l IH]; [done| |]; rewrite fmap_cons;
    intros [Hk Hnd]%NoDup_cons.
  - change (resolved ((k, Some j) :: l)) with ((k, j) :: resolved l).
    rewrite fmap_cons. apply NoDup_cons. split; [|by apply IH].
    intros Hin. by apply Hk, resolved_keys.
  - change (resolved ((k, None) :: l)) with (resolved l). by apply IH.
Qed.

(** A record holds, for each field, the cell of its row in the column the
    resolver found; a field that found no column is not in the record. *)
Lemma read_record_resolved (l : list (string * option nat)) row k col :
  NoDup l.*1 → (k, col) ∈ l →
  read_record (resolved l) row !! k = field_of_row row col.
Proof.
  intros Hnd Hin. unfold read_record, field_of_row. destruct col as [j|]; simpl.
  - apply read_record_foldl_in; [by apply resolved_NoDup|].
    by apply resolved_elem_of.
  - rewrite read_record_foldl_notin; [done|].
    intros ([k' j] & Hk & Hj%resolved_elem_of)%list_elem_of_fmap.
    simpl in Hk. subst k'.
    assert (Some j = None); [|done].
    revert Hnd Hj Hin. clear. induction l as [|[k' c] l IH]; intros Hnd Hj Hin.
    + by apply elem_of_nil in Hj.
    + rewrite fmap_cons in Hnd. apply NoDup_cons in Hnd as [Hk' Hnd].
      apply elem_of_cons in Hj as [[= -> ->]|Hj];
        apply elem_of_cons in Hin as [[= ]|Hin]; try done.
      * destruct Hk'. by apply (list_elem_of_fmap_2 fst) in Hin.
      * subst. destruct Hk'. by apply (list_elem_of_fmap_2 fst) in Hj.
      * by apply IH.
Qed.

Lemma parsed_record (cm : list (string * nat)) data_rows data i :
  read_rows cm data_rows [] = Ok data →
  data !! i = read_record cm <$> List.filter row_present data_rows !! i.
Proof.
  intros [_ ->]%read_rows_Ok. simpl. by rewrite list_lookup_fmap.
Qed.

Ltac field_of_column :=
  apply read_record_resolved;
  [ apply (bool_decide_unpack _); by vm_compute
  | set_solver ].

(** The seven fields of one drainage-area record. *)
Lemma da_record_fields float_repr row0 row :
  let rec := read_record (da_col_map (header_of float_repr row0)) row in
  let column := _find_column (header_of float_repr row0) in
  rec !! "designation"
  = field_of_row row (column ["DRAINAGE AREA DESIGNATION"]) ∧
  rec !! "outflow_structure"
  = field_of_row row (column ["OUTFLOW STRUCTURE"]) ∧
  rec !! "area_acres"
  = field_of_row row (column ["DRAINAGE AREA (ACRE"; "DRAINAGE AREA(ACRE"]) ∧
  rec !! "tc_min" = field_of_row row (column ["TIME OF CONCENTRATION"]) ∧
  rec !! "runoff_coeff" = field_of_row row (column ["RUNOFF COEFFICIENT"]) ∧
  rec !! "intensity"
  = field_of_row row (column ["CATCHMENT INTENSITY"; "INTENSITY"]) ∧
  rec !! "flow_cfs"
  = field_of_row row (column ["CATCHMENT RATIONAL FLOW"; "RATIONAL FLOW"]).
Proof. unfold da_col_map. split_and!; field_of_column. Qed.

(** X13: the drainage-area parser, field by field: record i is read from the
    i-th data row whose first cell is not None, and each of its seven
    fields holds the cell of that row in the column the resolver found
    for the field's phrases, None when the row is shorter than that; a
    field whose phrases match no header cell is missing from the record. *)
Theorem parse_da_summary_fields float_repr row0 data_rows data i rec :
  parse_da_summary float_repr (row0 :: data_rows) = Ok data →
  data !! i = Some rec →
  ∃ row,
    List.filter row_present data_rows !! i = Some row ∧
    let column := _find_column (header_of float_repr row0) in
    rec !! "designation"
    = field_of_row row (column ["DRAINAGE AREA DESIGNATION"]) ∧
    rec !! "outflow_structure"
    = field_of_row row (column ["OUTFLOW STRUCTURE"]) ∧
    rec !! "area_acres"
    = field_of_row row (column ["DRAINAGE AREA (ACRE"; "DRAINAGE AREA(ACRE"]) ∧
    rec !! "tc_min" = field_of_row row (column ["TIME OF CONCENTRATION"]) ∧
    rec !! "runoff_coeff" = field_of_row row (column ["RUNOFF COEFFICIENT"]) ∧
    rec !! "intensity"
    = field_of_row row (column ["CATCHMENT INTENSITY"; "INTENSITY"]) ∧
    rec !! "flow_cfs"
    = field_of_row row (column ["CATCHMENT RATIONAL FLOW"; "RATIONAL FLOW"]).
Proof.
  unfold parse_da_summary. cbv zeta. intros Hdata Hi.
  rewrite (parsed_record _ _ _ i Hdata) in Hi.
  destruct (List.filter row_present data_rows !! i) as [row|]; [|done].
  injection Hi as <-. exists row. split; [done|].
  apply da_record_fields.
Qed.

Lemma parse_da_summary_fields_witness :
  let row0 := [VStr "Drainage Area Designation"; VStr " Outflow Structure "] in
  let data_rows := [ [VNone; VStr "CI-9"]; [VStr "DA-1"] ] in
  ∃ data rec,
    (parse_da_summary repr_unused (row0 :: data_rows) = Ok data ∧
     data !! 0 = Some rec) ∧
    rec !! "designation" = Some (VStr "DA-1") ∧
    rec !! "outflow_structure" = Some VNone ∧
    rec !! "tc_min" = None.
Proof.
  intros row0 data_rows.
  set (rec := read_record (da_col_map (header_of repr_unused row0)) [VStr "DA-1"]).
  exists [rec], rec.
  assert (H1 : parse_da_summary repr_unused (row0 :: data_rows) = Ok [rec])
    by (vm_compute; reflexivity).
  assert (H2 : [rec] !! 0 = Some rec) by reflexivity.
  split; [split; [exact H1|exact H2]|].
  destruct (parse_da_summary_fields repr_unused row0 data_rows [rec] 0 rec H1 H2)
    as (row & Hrow & Hd & Ho & _ & Ht & _).
  assert (row = [VStr "DA-1"]) as -> by (vm_compute in Hrow; congruence).
  rewrite Hd, Ho, Ht. split_and!; vm_compute; reflexivity.
Defined.

(** X14: the inlet parser, field by field: record i is read from the i-th data
    row whose first cell is not None, and each of its fifteen fields holds
    the cell of that row in the column the resolver found for the field's
    phrases, None when the row is shorter than that; a field whose phrases
    match no header cell is missing from the record. *)
Theorem parse_inlets_fields float_repr row0 data_rows data i rec :
  parse_inlets float_repr (row0 :: data_rows) = Ok data →
  data !! i = Some rec →
  ∃ row,
    List.filter row_present data_rows !! i = Some row ∧
    let column := _find_column (header_of float_repr row0) in
    rec !! "structure_no" = field_of_row row (column ["STRUCTURE NO"]) ∧
    rec !! "alignment" = field_of_row row (column ["ALIGNMENT"]) ∧
    rec !! "station" = field_of_row row (column ["STATION"]) ∧
    rec !! "offset" = field_of_row row (column ["OFFSET"]) ∧
    rec !! "structure_type" = field_of_row row (column ["STRUCTURE TYPE"]) ∧
    rec !! "description" = field_of_row row (column ["DESCRIPTION"]) ∧
    rec !! "elevation_rim"
    = field_of_row row (column ["ELEVATION (RIM)"; "ELEVATION"]) ∧
    rec !! "flow_captured"
    = field_of_row row (column ["FLOW (CAPTURED)"; "CAPTURED"]) ∧
    rec !! "flow_bypassed_rational"
    = field_of_row row (column ["BYPASSED RATIONAL"]) ∧
    rec !! "flow_total_bypassed" = field_of_row row (column ["TOTAL BYPASSED"]) ∧
    rec !! "capture_efficiency"
    = field_of_row row (column ["CAPTURE EFFICIENCY"]) ∧
    rec !! "max_spread" = field_of_row row (column ["SPREAD"]) ∧
    rec !! "hgl_out" = field_of_row row (column ["HYDRAULIC GRADE"]) ∧
    rec !! "egl_out" = field_of_row row (column ["ENERGY GRADE"]) ∧
    rec !! "bypass_target" = field_of_row row (column ["BYPASS TARGET"]).
Proof.
  unfold parse_inlets. cbv zeta. intros Hdata Hi.
  rewrite (parsed_record _ _ _ i Hdata) in Hi.
  destruct (List.filter row_present data_rows !! i) as [row|]; [|done].
  injection Hi as <-. exists row. split; [done|].
  unfold inlet_col_map. split_and!; field_of_column.
Qed.

Lemma parse_inlets_fields_witness :
  let row0 := [VStr "Structure No"; VStr "Station"; VStr "Offset"] in
  let data_rows := [ [VStr "CI-1"; VStr "1+00"] ] in
  ∃ data rec,
    (parse_inlets repr_unused (row0 :: data_rows) = Ok data ∧
     data !! 0 = Some rec) ∧
    rec !! "station" = Some (VStr "1+00") ∧
    rec !! "offset" = Some VNone ∧
    rec !! "alignment" = None.
Proof.
  intros row0 data_rows.
  set (rec := read_record (inlet_col_map (header_of repr_unused row0))
                [VStr "CI-1"; VStr "1+00"]).
  exists [rec], rec.
  assert (H1 : parse_inlets repr_unused (row0 :: data_rows) = Ok [rec])
    by (vm_compute; reflexivity).
  assert (H2 : [rec] !! 0 = Some rec) by reflexivity.
  split; [split; [exact H1|exact H2]|].
  destruct (parse_inlets_fields repr_unused row0 data_rows [rec] 0 rec H1 H2)
    as (row & Hrow & _ & Ha & Hs & Ho & _).
  assert (row = [VStr "CI-1"; VStr "1+00"]) as ->
    by (vm_compute in Hrow; congruence).
  rewrite Ha, Hs, Ho. split_and!; vm_compute; reflexivity.
Defined.

(** ** Drainage Area Summary sheet: header block and parsed rows *)

Lemma da_data_row_frame ws r rec :
  ws_title (da_data_row ws r rec) = ws_title ws ∧
  merged (da_data_row ws r rec) = merged ws.
Proof. done. Qed.

Lemma da_data_rows_frame l ws r :
  ws_title (da_data_rows ws r l) = ws_title ws ∧
  merged (da_data_rows ws r l) = merged ws.
Proof.
  revert ws r. induction l as [|rec l IH]; intros ws r; simpl; [done|].
  destruct (IH (da_data_row ws r rec) (S r)) as [-> ->].
  apply da_data_row_frame.
Qed.

(** X15: whatever the data, the sheet is titled Drainage Area Summary, its
    merged ranges are A2:L2, rows 3 to 4 of each column A to D, E3:H3 and
    I3:L3, and rows 2 to 4 carry the title, the primary headers and, under
    both groups, the four return periods; row 1 stays empty. *)
Theorem da_sheet_header_and_merges (da_data : list record) :
  let ws := create_da_summary_sheet da_data in
  ws_title ws = "Drainage Area Summary" ∧
  merged ws = [ ((2, 1), (2, 12)); ((3, 1), (4, 1)); ((3, 2), (4, 2));
                ((3, 3), (4, 3)); ((3, 4), (4, 4)); ((3, 5), (3, 8));
                ((3, 9), (3, 12)) ] ∧
  cells ws !! (2, 1) = Some (VStr "DRAINAGE AREA SUMMARY") ∧
  (∀ c text, (c, text) ∈ single_headers → cells ws !! (3, c) = Some (VStr text)) ∧
  cells ws !! (3, 5) = Some (VStr "RAINFALL INTENSITY (IN/HR)") ∧
  cells ws !! (3, 9) = Some (VStr "PEAK FLOW (CFS)") ∧
  (∀ i text, sub_headers !! i = Some text →
             cells ws !! (4, 5 + i) = Some (VStr text) ∧
             cells ws !! (4, 9 + i) = Some (VStr text)) ∧
  (∀ c, cells ws !! (1, c) = None).
Proof.
  unfold create_da_summary_sheet. cbv zeta.
  set (top := da_header_rows (create_sheet "Drainage Area Summary")).
  destruct (da_data_rows_frame da_data top 5) as [-> ->].
  assert (Hframe : ∀ r c, r < 5 →
            cells (da_data_rows top 5 da_data) !! (r, c) = cells top !! (r, c))
    by (intros r c Hr; apply da_data_rows_outside; lia).
  split_and!.
  - done.
  - done.
  - rewrite Hframe by lia. by vm_compute.
  - intros c text Hin. rewrite Hframe by lia.
    repeat (apply elem_of_cons in Hin as [[= -> ->]|Hin]; [by vm_compute|]).
    by apply elem_of_nil in Hin.
  - rewrite Hframe by lia. by vm_compute.
  - rewrite Hframe by lia. by vm_compute.
  - intros i text Hi. rewrite !Hframe by lia.
    do 4 (destruct i as [|i]; [injection Hi as <-; by vm_compute|]).
    done.
  - intros c. rewrite Hframe by lia. subst top.
    unfold da_header_rows. cbv zeta.
    repeat first
      [ rewrite foldl_cells_frame by (intros; cbv zeta; by header_cell)
      | progress header_cell ].
    done.
Qed.

(** X16: from the rows of the export to the sheet: row 5 + i of the Drainage
    Area Summary sheet is built from the i-th data row whose first cell is
    not None; columns A to E and I hold the cells of that row under the
    headers found for designation, area, time of concentration, runoff
    coefficient, intensity and flow, and None where the header is missing
    or the row too short. *)
Theorem da_sheet_from_rows float_repr row0 data_rows data i row :
  parse_da_summary float_repr (row0 :: data_rows) = Ok data →
  List.filter row_present data_rows !! i = Some row →
  let column := _find_column (header_of float_repr row0) in
  let cell phrases := default VNone (field_of_row row (column phrases)) in
  let ws := create_da_summary_sheet data in
  cells ws !! (5 + i, 1) = Some (cell ["DRAINAGE AREA DESIGNATION"]) ∧
  cells ws !! (5 + i, 2)
  = Some (cell ["DRAINAGE AREA (ACRE"; "DRAINAGE AREA(ACRE"]) ∧
  cells ws !! (5 + i, 3) = Some (cell ["TIME OF CONCENTRATION"]) ∧
  cells ws !! (5 + i, 4) = Some (cell ["RUNOFF COEFFICIENT"]) ∧
  cells ws !! (5 + i, 5) = Some (cell ["CATCHMENT INTENSITY"; "INTENSITY"]) ∧
  cells ws !! (5 + i, 9)
  = Some (cell ["CATCHMENT RATIONAL FLOW"; "RATIONAL FLOW"]).
Proof.
  intros Hdata Hrow column cell ws.
  pose proof Hdata as Hparse.
  unfold parse_da_summary in Hdata. cbv zeta in Hdata.
  pose proof (parsed_record _ _ _ i Hdata) as Hi. rewrite Hrow in Hi.
  simpl in Hi.
  destruct (da_record_fields float_repr row0 row)
    as (Hd & _ & Ha & Ht & Hc & Hn & Hf).
  subst ws. unfold create_da_summary_sheet. cbv zeta.
  destruct (da_data_rows_row data
              (da_header_rows (create_sheet "Drainage Area Summary")) 5 i _ Hi)
    as (ws0 & _ & Hsame).
  destruct (da_data_row_values ws0 (5 + i)
              (read_record (da_col_map (header_of float_repr row0)) row))
    as (H1 & H2 & H3 & H4 & H5 & H9 & _).
  rewrite !Hsame, H1, H2, H3, H4, H5, H9.
  unfold dict_get, cell, column. by rewrite Hd, Ha, Ht, Hc, Hn, Hf.
Qed.

Lemma da_sheet_from_rows_witness :
  let row0 := [VStr "Label"; VStr "Drainage Area Designation";
               VStr "Catchment Intensity (in/h)"] in
  let data_rows := [ [VInt 1; VStr "DA-1"; VInt 9]; [VNone; VStr "DA-2"; VInt 8];
                     [VInt 3; VStr "DA-3"] ] in
  ∃ data,
    (parse_da_summary repr_unused (row0 :: data_rows) = Ok data ∧
     List.filter row_present data_rows !! 1 = Some [VInt 3; VStr "DA-3"]) ∧
    cells (create_da_summary_sheet data) !! (5 + 1, 1) = Some (VStr "DA-3") ∧
    cells (create_da_summary_sheet data) !! (5 + 1, 5) = Some VNone.
Proof.
  intros row0 data_rows.
  set (data := read_record (da_col_map (header_of repr_unused row0))
               <$> [ [VInt 1; VStr "DA-1"; VInt 9]; [VInt 3; VStr "DA-3"] ]).
  assert (Hdata : parse_da_summary repr_unused (row0 :: data_rows) = Ok data)
    by (vm_compute; reflexivity).
  assert (Hrow : List.filter row_present data_rows !! 1
                 = Some [VInt 3; VStr "DA-3"]) by reflexivity.
  exists data. split; [split; [exact Hdata|exact Hrow]|].
  destruct (da_sheet_from_rows repr_unused row0 data_rows data 1
              [VInt 3; VStr "DA-3"] Hdata Hrow)
    as (H1 & _ & _ & _ & H5 & _).
  split; [exact H1|exact H5].
Defined.

(** ** Linking across the two exports *)

Lemma index_step_unindexed float_repr idx (da : record) :
  indexed da = false → index_step float_repr idx da = idx.
Proof. unfold index_step, indexed. cbv zeta. by intros ->. Qed.

Lemma foldl_index_step_unindexed float_repr (l : list record) idx :
  Forall (λ da, indexed da = false) l →
  foldl (index_step float_repr) idx l = idx.
Proof.
  revert idx. induction l as [|da l IH]; intros idx Hall; simpl; [done|].
  apply Forall_cons in Hall as [Hda Hall].
  rewrite index_step_unindexed by done. by apply IH.
Qed.

(** X17: when no header cell of the drainage-area export contains OUTFLOW
    STRUCTURE, its records carry no outflow_structure, the link index built
    from them is empty, and every row of the inlet sheet has None in
    columns H to L. *)
Theorem no_outflow_column_no_links float_repr row0 data_rows da_data :
  parse_da_summary float_repr (row0 :: data_rows) = Ok da_data →
  _find_column (header_of float_repr row0) ["OUTFLOW STRUCTURE"] = None →
  (∀ da, da ∈ da_data → da !! "outflow_structure" = None) ∧
  da_by_outflow float_repr (Some da_data) = ∅ ∧
  ∀ inlet_data ws i rec,
    create_inlet_sheet float_repr inlet_data (Some da_data) = Ok ws →
    inlet_data !! i = Some rec →
    ∀ c, 8 ≤ c ≤ 12 → cells ws !! (5 + i, c) = Some VNone.
Proof.
  intros Hdata Hcol.
  assert (Hkeys : ∀ da, da ∈ da_data → da !! "outflow_structure" = None).
  { intros da (i & Hi)%list_elem_of_lookup_1.
    unfold parse_da_summary in Hdata. cbv zeta in Hdata.
    rewrite (parsed_record _ _ _ i Hdata) in Hi.
    destruct (List.filter row_present data_rows !! i) as [row|]; [|done].
    injection Hi as <-.
    destruct (da_record_fields float_repr row0 row) as (_ & Ho & _).
    by rewrite Ho, Hcol. }
  assert (Hidx : da_by_outflow float_repr (Some da_data) = ∅).
  { rewrite da_by_outflow_foldl. apply foldl_index_step_unindexed.
    apply Forall_forall. intros da Hda.
    unfold indexed, dict_get_default. by rewrite (Hkeys da Hda). }
  split_and!; [done..|].
  intros inlet_data ws i rec Hws Hi.
  apply (inlet_row_unlinked _ _ _ _ _ _ Hws Hi).
  rewrite Hidx. apply index_get_empty.
Qed.

Lemma no_outflow_column_no_links_witness :
  let row0 := [VStr "Drainage Area Designation"; VStr "Outflow"] in
  let data_rows := [ [VStr "DA-1"; VStr "CI-1"] ] in
  ∃ da_data,
    (parse_da_summary repr_unused (row0 :: data_rows) = Ok da_data ∧
     _find_column (header_of repr_unused row0) ["OUTFLOW STRUCTURE"] = None) ∧
    da_by_outflow repr_unused (Some da_data) = ∅.
Proof.
  intros row0 data_rows.
  set (da_data := read_record (da_col_map (header_of repr_unused row0))
                  <$> [ [VStr "DA-1"; VStr "CI-1"] ]).
  assert (Hdata : parse_da_summary repr_unused (row0 :: data_rows) = Ok da_data)
    by (vm_compute; reflexivity).
  assert (Hcol : _find_column (header_of repr_unused row0) ["OUTFLOW STRUCTURE"]
                 = None) by reflexivity.
  exists da_data. split; [split; [exact Hdata|exact Hcol]|].
  exact (proj1 (proj2
    (no_outflow_column_no_links repr_unused row0 data_rows da_data Hdata Hcol))).
Defined.

(** ** The generated workbook *)

Lemma create_da_summary_sheet_title da_data :
  ws_title (create_da_summary_sheet da_data) = "Drainage Area Summary".
Proof.
  unfold create_da_summary_sheet. cbv zeta.
  by destruct (da_data_rows_frame da_data
                 (da_header_rows (create_sheet "Drainage Area Summary")) 5)
    as [-> _].
Qed.

Lemma create_inlet_sheet_title float_repr inlet_data da_data ws :
  create_inlet_sheet float_repr inlet_data da_data = Ok ws →
  ws_title ws = "Inlets".
Proof.
  intros (ws0 & Hrows & Ht & _)%inlet_sheet_top.
  apply inlet_data_rows_frame in Hrows as (-> & _). done.
Qed.

(** X18: the workbook that is saved holds the Drainage Area Summary sheet
    exactly when the drainage-area file gave at least one record and the
    Inlets sheet exactly when the inlet file did, in that order, and no
    other sheet: with no record on either side it has no sheet at all. *)
Theorem generate_workbook_sheets float_repr da_rows inlet_rows wb :
  generate_workbook float_repr da_rows inlet_rows = Ok wb →
  ∃ da_data inlet_data,
    (from_option (parse_da_summary float_repr) (Ok []) da_rows = Ok da_data) ∧
    (from_option (parse_inlets float_repr) (Ok []) inlet_rows = Ok inlet_data) ∧
    ws_title <$> wb
    = ((match da_data with [] => [] | _ => ["Drainage Area Summary"] end)
       ++ (match inlet_data with [] => [] | _ => ["Inlets"] end))%list ∧
    (wb = [] ↔ da_data = [] ∧ inlet_data = []).
Proof.
  unfold generate_workbook.
  assert (Hda : match da_rows with
                | Some rows => parse_da_summary float_repr rows
                | None => Ok []
                end = from_option (parse_da_summary float_repr) (Ok []) da_rows)
    by by destruct da_rows.
  assert (Hin : match inlet_rows with
                | Some rows => parse_inlets float_repr rows
                | None => Ok []
                end = from_option (parse_inlets float_repr) (Ok []) inlet_rows)
    by by destruct inlet_rows.
  rewrite Hda, Hin. clear Hda Hin.
  destruct (from_option (parse_da_summary float_repr) (Ok []) da_rows)
    as [da_data|e]; [|done].
  cbn [mbind result_bind].
  destruct (from_option (parse_inlets float_repr) (Ok []) inlet_rows)
    as [inlet_data|e]; [|done].
  cbn [mbind result_bind]. cbv zeta. intros Hwb.
  exists da_data, inlet_data. split; [done|]. split; [done|].
  destruct inlet_data as [|rec inlet_data].
  - injection Hwb as <-. destruct da_data as [|da da_data]; [done|].
    simpl. rewrite create_da_summary_sheet_title. split; [done|].
    split; [done|]. by intros [? _].
  - destruct (create_inlet_sheet float_repr (rec :: inlet_data) _)
      as [ws|e] eqn:Hws; [|done].
    cbn [mbind result_bind] in Hwb. injection Hwb as <-.
    apply create_inlet_sheet_title in Hws.
    destruct da_data as [|da da_data]; simpl; rewrite Hws.
    + split; [done|]. split; [done|]. by intros [_ ?].
    + rewrite create_da_summary_sheet_title. split; [done|].
      split; [done|]. by intros [? _].
Qed.

Lemma generate_workbook_sheets_witness :
  let inlet_rows := [ [VStr "Structure No"]; [VStr "CI-1"] ] in
  ∃ wb,
    generate_workbook repr_unused (Some [ [VStr "Drainage Area Designation"] ])
                      (Some inlet_rows) = Ok wb ∧
    ws_title <$> wb = ["Inlets"].
Proof.
  intros inlet_rows.
  destruct (generate_workbook repr_unused
              (Some [ [VStr "Drainage Area Designation"] ]) (Some inlet_rows))
    as [wb|e] eqn:Hwb; [|vm_compute in Hwb; discriminate Hwb].
  exists wb. split; [reflexivity|].
  destruct (generate_workbook_sheets repr_unused _ _ wb Hwb)
    as (da_data & inlet_data & Hda & Hin & Ht & _).
  vm_compute in Hda. injection Hda as <-.
  rewrite Ht. clear Ht Hwb.
  destruct inlet_data as [|rec inlet_data]; [|reflexivity].
  vm_compute in Hin. discriminate Hin.
Defined.

(** X19: with no drainage-area file, or one that gives no record, the inlet
    sheet is built without drainage-area data: the workbook is the inlet
    sheet alone and every data row has None in columns H to L. *)
Theorem generate_workbook_without_da float_repr da_rows inlet_rows wb
    inlet_data i rec :
  generate_workbook float_repr da_rows (Some inlet_rows) = Ok wb →
  from_option (parse_da_summary float_repr) (Ok []) da_rows = Ok [] →
  parse_inlets float_repr inlet_rows = Ok inlet_data →
  inlet_data !! i = Some rec →
  ∃ ws, wb = [ws] ∧
        create_inlet_sheet float_repr inlet_data None = Ok ws ∧
        ∀ c, 8 ≤ c ≤ 12 → cells ws !! (5 + i, c) = Some VNone.
Proof.
  unfold generate_workbook. intros Hwb Hda Hin Hi.
  assert (Hda' : match da_rows with
                 | Some rows => parse_da_summary float_repr rows
                 | None => Ok []
                 end = Ok []) by by destruct da_rows.
  rewrite Hda', Hin in Hwb. cbn [mbind result_bind] in Hwb. cbv zeta in Hwb.
  destruct inlet_data as [|rec0 inlet_data]; [done|].
  destruct (create_inlet_sheet float_repr (rec0 :: inlet_data) None)
    as [ws|e] eqn:Hws; [|done].
  cbn [mbind result_bind] in Hwb. injection Hwb as <-.
  exists ws. split_and!; [done..|].
  apply (inlet_row_unlinked _ _ _ _ _ _ Hws Hi). apply index_get_empty.
Qed.

Lemma generate_workbook_without_da_witness :
  let inlet_rows := [ [VStr "Structure No"]; [VStr "CI-1"] ] in
  ∃ wb inlet_data rec ws,
    (generate_workbook repr_unused None (Some inlet_rows) = Ok wb ∧
     parse_inlets repr_unused inlet_rows = Ok inlet_data ∧
     inlet_data !! 0 = Some rec) ∧
    wb = [ws] ∧ cells ws !! (5 + 0, 8) = Some VNone.
Proof.
  intros inlet_rows.
  set (rec := read_record (inlet_col_map (header_of repr_unused [VStr "Structure No"]))
                [VStr "CI-1"]).
  assert (Hin : parse_inlets repr_unused inlet_rows = Ok [rec])
    by (vm_compute; reflexivity).
  destruct (generate_workbook repr_unused None (Some inlet_rows))
    as [wb|e] eqn:Hwb; [|vm_compute in Hwb; discriminate Hwb].
  assert (Hi : [rec] !! 0 = Some rec) by reflexivity.
  destruct (generate_workbook_without_da repr_unused None inlet_rows wb [rec] 0 rec
              Hwb eq_refl Hin Hi) as (ws & Hws & _ & Hcells).
  exists wb, [rec], rec, ws.
  split; [split_and!; [reflexivity|exact Hin|exact Hi]|].
  split; [exact Hws|]. apply Hcells. lia.
Defined.
